(** * The Hyperwallet REST client (hyperwallet/api.py): a shallow embedding

    The module is Python 2 code (implicit relative imports, [class Api(object)],
    [os.path.join] on tokens).  Its methods are embedded as Rocq functions in a
    small state-and-exception monad:
    - Python values are the inductive [value]; dictionaries are finite maps;
    - a method is a function into [M W A]: it threads a world [W] (for the
      facade, the log of transport calls already made) and either returns,
      raises, or runs out of fuel (the only loop is [while True] in
      [_getCollection]);
    - the transport ([utils.ApiClient]) is not part of this module: it is a
      field of the client record, an arbitrary function of the calls made so
      far and the current request. *)

From Stdlib Require Import ZArith Ascii String List Lia.
From stdpp Require Import gmap strings list.

#[local] Set Warnings "-register-all".
#[local] Open Scope string_scope.
#[local] Open Scope Z_scope.

(** ** Values *)

(** Python values that can occur in parameters, payloads and decoded JSON
    bodies.  Floats are left out. *)
Inductive value :=
| VNone
| VBool (b : bool)
| VInt (z : Z)
| VStr (s : string)
| VList (l : list value)
| VDict (d : gmap string value).

Inductive exn :=
| HyperwalletException (msg : string)
| AttributeError (msg : string)
| TypeError (msg : string)
| NameError (msg : string)
| TransportError (msg : string).

(** What a call can do: return, raise, or still be looping when the fuel is
    spent. *)
Inductive outcome (A : Type) :=
| Ok (a : A)
| Raise (e : exn)
| OutOfFuel.
Arguments Ok {A} a.
Arguments Raise {A} e.
Arguments OutOfFuel {A}.

(** ** The monad *)

Definition M (W A : Type) : Type := W -> outcome A * W.

Definition ret {W A} (a : A) : M W A := fun w => (Ok a, w).
Definition raise {W A} (e : exn) : M W A := fun w => (Raise e, w).
Definition out_of_fuel {W A} : M W A := fun w => (OutOfFuel, w).
Definition bind {W A B} (m : M W A) (k : A -> M W B) : M W B :=
  fun w =>
    match m w with
    | (Ok a, w') => k a w'
    | (Raise e, w') => (Raise e, w')
    | (OutOfFuel, w') => (OutOfFuel, w')
    end.

Notation "x <- m ;; k" := (bind m (fun x => k))
  (at level 100, m at next level, right associativity).
Notation "m ;;; k" := (bind m (fun _ => k))
  (at level 100, right associativity).

Fixpoint mapM {W A B} (f : A -> M W B) (l : list A) : M W (list B) :=
  match l with
  | [] => ret []
  | x :: l' => y <- f x ;; ys <- mapM f l' ;; ret (y :: ys)
  end.

(** ** Python primitives used by the module (CPython 2.7) *)

Definition type_name (v : value) : string :=
  match v with
  | VNone => "NoneType"
  | VBool _ => "bool"
  | VInt _ => "int"
  | VStr _ => "str"
  | VList _ => "list"
  | VDict _ => "dict"
  end.

(** Truth value: [None], [False], [0], the empty string, list and dict are
    false. *)
Definition truthy (v : value) : bool :=
  match v with
  | VNone => false
  | VBool b => b
  | VInt z => negb (z =? 0)
  | VStr s => match s with EmptyString => false | _ => true end
  | VList l => match l with [] => false | _ => true end
  | VDict d => negb (Nat.eqb (size d) 0)
  end.

(** [a or b] *)
Definition py_or (a b : value) : value := if truthy a then a else b.

Definition is_None (v : value) : bool :=
  match v with VNone => true | _ => false end.

Definition isinstance_dict (v : value) : bool :=
  match v with VDict _ => true | _ => false end.

(** [o.get(key, default)]: only dictionaries have the method. *)
Definition get {W} (o : value) (key : string) (dflt : value) : M W value :=
  match o with
  | VDict d => ret (match d !! key with Some v => v | None => dflt end)
  | _ => raise (AttributeError
                  ("'" ++ type_name o ++ "' object has no attribute 'get'"))
  end.

(** [key in container]: key membership for a dictionary, element membership
    for a list, substring test for a string; anything else is not iterable. *)
Definition contains {W} (key : string) (container : value) : M W bool :=
  match container with
  | VDict d => ret (bool_decide (key ∈ dom d))
  | VList l =>
      ret (existsb (fun v => match v with
                             | VStr s => String.eqb s key
                             | _ => false
                             end) l)
  | VStr s => ret (match index 0%nat key s with Some _ => true | None => false end)
  | _ => raise (TypeError ("argument of type '" ++ type_name container
                           ++ "' is not iterable"))
  end.

(** [container[key] = v] *)
Definition setitem {W} (container : value) (key : string) (v : value) : M W value :=
  match container with
  | VDict d => ret (VDict (<[key := v]> d))
  | _ => raise (TypeError ("'" ++ type_name container
                           ++ "' object does not support item assignment"))
  end.

Fixpoint chars (s : string) : list value :=
  match s with
  | EmptyString => []
  | String c s' => VStr (String c EmptyString) :: chars s'
  end.

(** [for x in v]: the elements of a list, the characters of a string, the keys
    of a dictionary (in the dictionary's own, unspecified, order). *)
Definition iter {W} (v : value) : M W (list value) :=
  match v with
  | VList l => ret l
  | VStr s => ret (chars s)
  | VDict d => ret (VStr <$> (map_to_list d).*1)
  | _ => raise (TypeError ("'" ++ type_name v ++ "' object is not iterable"))
  end.

(** Ordering of a value against an int in CPython 2: [None] is below every
    number, numbers compare by value (a bool counts as 0 or 1), every other
    object is above every number. *)
Definition cmp_int (v : value) (n : Z) : comparison :=
  match v with
  | VNone => Lt
  | VBool b => Z.b2z b ?= n
  | VInt z => z ?= n
  | _ => Gt
  end.

(** [v < n] *)
Definition lt_int (v : value) (n : Z) : bool :=
  match cmp_int v n with Lt => true | _ => false end.

(** [n >= v] *)
Definition int_ge (n : Z) (v : value) : bool :=
  match cmp_int v n with Gt => false | _ => true end.

(** [v += n] for an int [n]: addition on numbers (a bool counts as 0 or 1);
    a string cannot be concatenated with an int, a list cannot be extended by
    one, and nothing else supports the operator. *)
Definition iadd {W} (v : value) (n : Z) : M W value :=
  match v with
  | VInt z => ret (VInt (z + n))
  | VBool b => ret (VInt (Z.b2z b + n))
  | VStr _ => raise (TypeError "cannot concatenate 'str' and 'int' objects")
  | VList _ => raise (TypeError "'int' object is not iterable")
  | _ => raise (TypeError ("unsupported operand type(s) for +=: '"
                           ++ type_name v ++ "' and 'int'"))
  end.

(** [l[0:stop]]: [None] keeps everything, a negative stop counts from the
    end. *)
Definition slice_to {W A} (l : list A) (stop : value) : M W (list A) :=
  let upto (z : Z) :=
    if z <? 0 then firstn (Z.to_nat (Z.of_nat (length l) + z)) l
    else firstn (Z.to_nat z) l in
  match stop with
  | VNone => ret l
  | VInt z => ret (upto z)
  | VBool b => ret (upto (Z.b2z b))
  | _ => raise (TypeError "slice indices must be integers or None or have an __index__ method")
  end.

Fixpoint endswith_slash (s : string) : bool :=
  match s with
  | EmptyString => false
  | String c EmptyString => Ascii.eqb c "/"%char
  | String _ s' => endswith_slash s'
  end.

(** [os.path.join(a, *p)] (posixpath): a component that starts with a slash
    restarts the path; a component that is not a string has no [startswith]. *)
Fixpoint path_join {W} (path : string) (p : list value) : M W string :=
  match p with
  | [] => ret path
  | VStr b :: p' =>
      if String.prefix "/" b then path_join b p'
      else if String.eqb path "" || endswith_slash path then path_join (path ++ b) p'
      else path_join (path ++ "/" ++ b) p'
  | v :: _ => raise (AttributeError ("'" ++ type_name v
                                     ++ "' object has no attribute 'startswith'"))
  end.

(** ** The client *)

(** One call of the transport collaborator. [doGet(path, params=None)],
    [doPost(path, data, headers=None)], [doPut(path, data, headers=None)]. *)
Inductive request :=
| GET (path : string) (params : value)
| POST (path : string) (data : value) (headers : value)
| PUT (path : string) (data : value) (headers : value).

(** The fields set by [Api.__init__].  [apiClient] answers a request given the
    requests made before it. *)
Record Api := {
  username : value;
  password : value;
  programToken : value;
  server : value;
  apiClient : list request -> request -> outcome value
}.

(** The facade runs in the world of transport calls made so far. *)
Abbreviation T := (M (list request)).

Definition transport (self : Api) (r : request) : T value :=
  fun log => (apiClient self log r, (log ++ [r])%list).

Definition doGet (self : Api) (path : string) (params : value) : T value :=
  transport self (GET path params).
Definition doPost (self : Api) (path : string) (data headers : value) : T value :=
  transport self (POST path data headers).
Definition doPut (self : Api) (path : string) (data headers : value) : T value :=
  transport self (PUT path data headers).

(** [Api.__init__] *)
Definition __init__ {W} (username password programToken server : value)
    (client : list request -> request -> outcome value) : M W Api :=
  if negb (truthy username) then raise (HyperwalletException "username is required")
  else if negb (truthy password) then raise (HyperwalletException "password is required")
  else if negb (truthy programToken) then
    raise (HyperwalletException "programToken is required")
  else ret {| username := username; password := password;
              programToken := programToken; server := server;
              apiClient := client |}.

(** ** Resources *)

(** The names bound in the module's global namespace: its imports and the
    class it defines.  [from hyperwallet import (User, BankAccount, PrepaidCard,
    PaperCheck, Webhook)]. *)
Definition module_globals : list string :=
  ["os"; "SERVER"; "HyperwalletException"; "ApiClient";
   "User"; "BankAccount"; "PrepaidCard"; "PaperCheck"; "Webhook";
   "Api"].

(** A resource object: the class it was built from and the mapping it wraps. *)
Record resource := Resource { cls : string; mapping : value }.

(** [Name(x)]: the name is looked up in the globals when the call runs. *)
Definition construct {W} (name : string) (x : value) : M W resource :=
  if bool_decide (name ∈ module_globals) then ret (Resource name x)
  else raise (NameError ("global name '" ++ name ++ "' is not defined")).

(** [[Name(x) for x in response.get('data', [])]] *)
Definition construct_each {W} (name : string) (response : value) : M W (list resource) :=
  data <- get response "data" (VList []) ;;
  xs <- iter data ;;
  mapM (construct name) xs.

(** [if not v: raise HyperwalletException(msg)] *)
Definition required {W} (v : value) (msg : string) : M W unit :=
  if negb (truthy v) then raise (HyperwalletException msg) else ret tt.

(** [if key not in params: raise HyperwalletException(msg)] *)
Definition required_key {W} (key : string) (params : value) (msg : string) : M W unit :=
  present <- contains key params ;;
  if negb present then raise (HyperwalletException msg) else ret tt.

(** ** Api._addProgramToken

    The dictionary is updated in place and returned: the value returned here
    is also the new content of the caller's [data]. *)
Definition _addProgramToken {W} (self : Api) (data : value) : M W value :=
  if negb (isinstance_dict data) then
    raise (HyperwalletException "data must be a dictionary object")
  else
    present <- contains "programToken" data ;;
    if present then ret data
    else setitem data "programToken" (programToken self).

(** ** Api._getCollection *)

Definition chunksize : Z := 100.

(** [{'offset': offset, 'limit': chunksize}] *)
Definition page (offset : value) : value :=
  VDict (<["offset" := offset]> (<["limit" := VInt chunksize]> ∅)).

(** The [while True] loop; one unit of fuel per iteration. *)
Fixpoint _getCollection_loop {W A} (fuel : nat) (func : value -> M W (list A))
    (maximum offset : value) (results : list A) : M W (list A) :=
  match fuel with
  | O => out_of_fuel
  | S fuel' =>
      response <- func (page offset) ;;
      let results := (results ++ response)%list in
      offset <- iadd offset chunksize ;;
      if Z.of_nat (length response) <? chunksize then ret results
      else if truthy maximum && int_ge (Z.of_nat (length results)) maximum
      then ret results
      else _getCollection_loop fuel' func maximum offset results
  end.

Definition _getCollection {W A} (fuel : nat) (func : value -> M W (list A))
    (params : value) : M W (list A) :=
  o <- get params "offset" VNone ;;
  let offset := py_or o (VInt 0) in
  m <- get params "maximum" VNone ;;
  let maximum := py_or VNone m in
  if negb (is_None maximum) && lt_int maximum 1 then ret []
  else
    results <- _getCollection_loop fuel func maximum offset [] ;;
    slice_to results maximum.

(** ** The facade: one definition per method of [Api]

    An argument left out by the caller is passed as its default: [VNone],
    or the empty dictionary for the [params] of the two
    transfer-method-configuration methods.  A method is defined before the
    method that calls it.  The [get*] methods take the fuel of the loop they
    run. *)
Section Api_methods.
Context (self : Api).

Definition listUsers (params : value) : T (list resource) :=
  response <- doGet self "users" params ;;
  construct_each "User" response.

Definition getUsers (fuel : nat) (params : value) : T (list resource) :=
  _getCollection fuel listUsers params.

Definition createUser (data : value) : T resource :=
  required data "data is required" ;;;
  data <- _addProgramToken self data ;;
  response <- doPost self "users" data VNone ;;
  construct "User" response.

Definition retrieveUser (userToken : value) : T resource :=
  required userToken "userToken is required" ;;;
  path <- path_join "users" [userToken] ;;
  response <- doGet self path VNone ;;
  construct "User" response.

Definition updateUser (userToken data : value) : T resource :=
  required userToken "userToken is required" ;;;
  required data "data is required" ;;;
  path <- path_join "users" [userToken] ;;
  response <- doPut self path data VNone ;;
  construct "User" response.

Definition listUserBalances (userToken params : value) : T value :=
  required userToken "userToken is required" ;;;
  path <- path_join "users" [userToken; VStr "balances"] ;;
  doGet self path params.

Definition listUserReceipts (userToken params : value) : T value :=
  required userToken "userToken is required" ;;;
  path <- path_join "users" [userToken; VStr "receipts"] ;;
  doGet self path params.

Definition listBankAccounts (userToken params : value) : T (list resource) :=
  required userToken "userToken is required" ;;;
  path <- path_join "users" [userToken; VStr "bank-accounts"] ;;
  response <- doGet self path params ;;
  construct_each "BankAccount" response.

(** [self._getCollection(self.listBankAccounts, params)]: the accumulator
    calls [func] with one positional argument, which [listBankAccounts]
    receives as [userToken]; its [params] keeps the default. *)
Definition getBankAccounts (fuel : nat) (params : value) : T (list resource) :=
  _getCollection fuel (fun page => listBankAccounts page VNone) params.

Definition createBankAccount (userToken data : value) : T resource :=
  required userToken "userToken is required" ;;;
  required data "data is required" ;;;
  path <- path_join "users" [userToken; VStr "bank-accounts"] ;;
  response <- doPost self path data VNone ;;
  construct "BankAccount" response.

Definition retrieveBankAccount (userToken bankAccountToken : value) : T resource :=
  required userToken "userToken is required" ;;;
  required bankAccountToken "bankAccountToken is required" ;;;
  path <- path_join "users" [userToken; VStr "bank-accounts"; bankAccountToken] ;;
  response <- doGet self path VNone ;;
  construct "BankAccount" response.

Definition updateBankAccount (userToken bankAccountToken data : value) : T resource :=
  required userToken "userToken is required" ;;;
  required bankAccountToken "bankAccountToken is required" ;;;
  required data "data is required" ;;;
  path <- path_join "users" [userToken; VStr "bank-accounts"; bankAccountToken] ;;
  response <- doPut self path data VNone ;;
  construct "BankAccount" response.

Definition createBankAccountStatusTransition
    (userToken bankAccountToken data : value) : T value :=
  required userToken "userToken is required" ;;;
  required bankAccountToken "bankAccountToken is required" ;;;
  required data "data is required" ;;;
  path <- path_join "users" [userToken; VStr "bank-accounts"; bankAccountToken;
                             VStr "status-transitions"] ;;
  doPost self path data VNone.

Definition retrieveBankAccountStatusTransition
    (userToken bankAccountToken statusTransitionToken : value) : T value :=
  required userToken "userToken is required" ;;;
  required bankAccountToken "bankAccountToken is required" ;;;
  required statusTransitionToken "statusTransitionToken is required" ;;;
  path <- path_join "users" [userToken; VStr "bank-accounts"; bankAccountToken;
                             VStr "status-transitions"; statusTransitionToken] ;;
  doGet self path VNone.

Definition listPrepaidCards (userToken params : value) : T (list resource) :=
  required userToken "userToken is required" ;;;
  path <- path_join "users" [userToken; VStr "prepaid-cards"] ;;
  response <- doGet self path params ;;
  construct_each "PrepaidCard" response.

Definition getPrepaidCards (fuel : nat) (params : value) : T (list resource) :=
  _getCollection fuel (fun page => listPrepaidCards page VNone) params.

Definition createPrepaidCard (userToken data : value) : T resource :=
  required userToken "userToken is required" ;;;
  required data "data is required" ;;;
  path <- path_join "users" [userToken; VStr "prepaid-cards"] ;;
  response <- doPost self path data VNone ;;
  construct "PrepaidCard" response.

Definition retrievePrepaidCard (userToken prepaidCardToken : value) : T resource :=
  required userToken "userToken is required" ;;;
  required prepaidCardToken "prepaidCardToken is required" ;;;
  path <- path_join "users" [userToken; VStr "prepaid-cards"; prepaidCardToken] ;;
  response <- doGet self path VNone ;;
  construct "PrepaidCard" response.

Definition listPrepaidCardStatusTransitions
    (userToken prepaidCardToken : value) : T value :=
  required userToken "userToken is required" ;;;
  required prepaidCardToken "prepaidCardToken is required" ;;;
  path <- path_join "users" [userToken; VStr "prepaid-cards"; prepaidCardToken;
                             VStr "status-transitions"] ;;
  doGet self path VNone.

Definition createPrepaidCardStatusTransition
    (userToken prepaidCardToken data : value) : T value :=
  required userToken "userToken is required" ;;;
  required prepaidCardToken "prepaidCardToken is required" ;;;
  required data "data is required" ;;;
  path <- path_join "users" [userToken; VStr "prepaid-cards"; prepaidCardToken;
                             VStr "status-transitions"] ;;
  doPost self path data VNone.

Definition retrievePrepaidCardStatusTransition
    (userToken prepaidCardToken statusTransitionToken : value) : T value :=
  required userToken "userToken is required" ;;;
  required prepaidCardToken "prepaidCardToken is required" ;;;
  required statusTransitionToken "statusTransitionToken is required" ;;;
  path <- path_join "users" [userToken; VStr "prepaid-cards"; prepaidCardToken;
                             VStr "status-transitions"; statusTransitionToken] ;;
  doGet self path VNone.

Definition listPrepaidCardBalances
    (userToken prepaidCardToken params : value) : T value :=
  required userToken "userToken is required" ;;;
  required prepaidCardToken "prepaidCardToken is required" ;;;
  path <- path_join "users" [userToken; VStr "prepaid-cards"; prepaidCardToken;
                             VStr "balances"] ;;
  doGet self path params.

Definition listPrepaidCardReceipts
    (userToken prepaidCardToken params : value) : T value :=
  required userToken "userToken is required" ;;;
  required prepaidCardToken "prepaidCardToken is required" ;;;
  path <- path_join "users" [userToken; VStr "prepaid-cards"; prepaidCardToken;
                             VStr "receipts"] ;;
  doGet self path params.

Definition listPaperChecks (userToken params : value) : T (list resource) :=
  required userToken "userToken is required" ;;;
  path <- path_join "users" [userToken; VStr "paper-checks"] ;;
  response <- doGet self path params ;;
  construct_each "PaperCheck" response.

Definition getPaperChecks (fuel : nat) (params : value) : T (list resource) :=
  _getCollection fuel (fun page => listPaperChecks page VNone) params.

Definition createPaperCheck (userToken data : value) : T resource :=
  required userToken "userToken is required" ;;;
  required data "data is required" ;;;
  path <- path_join "users" [userToken; VStr "paper-checks"] ;;
  response <- doPost self path data VNone ;;
  construct "PaperCheck" response.

Definition retrievePaperCheck (userToken paperCheckToken : value) : T resource :=
  required userToken "userToken is required" ;;;
  required paperCheckToken "paperCheckToken is required" ;;;
  path <- path_join "users" [userToken; VStr "paper-checks"; paperCheckToken] ;;
  response <- doGet self path VNone ;;
  construct "PaperCheck" response.

Definition updatePaperCheck (userToken paperCheckToken data : value) : T resource :=
  required userToken "userToken is required" ;;;
  required paperCheckToken "paperCheckToken is required" ;;;
  required data "data is required" ;;;
  path <- path_join "users" [userToken; VStr "paper-checks"; paperCheckToken] ;;
  response <- doPut self path data VNone ;;
  construct "PaperCheck" response.

Definition createPaperCheckStatusTransition
    (userToken paperCheckToken data : value) : T value :=
  required userToken "userToken is required" ;;;
  required paperCheckToken "paperCheckToken is required" ;;;
  required data "data is required" ;;;
  path <- path_join "users" [userToken; VStr "paper-checks"; paperCheckToken;
                             VStr "status-transitions"] ;;
  doPost self path data VNone.

Definition retrievePaperCheckStatusTransition
    (userToken paperCheckToken statusTransitionToken : value) : T value :=
  required userToken "userToken is required" ;;;
  required paperCheckToken "paperCheckToken is required" ;;;
  required statusTransitionToken "statusTransitionToken is required" ;;;
  path <- path_join "users" [userToken; VStr "paper-checks"; paperCheckToken;
                             VStr "status-transitions"; statusTransitionToken] ;;
  doGet self path VNone.

Definition listPayments (params : value) : T (list resource) :=
  response <- doGet self "payments" params ;;
  construct_each "Payment" response.

Definition getPayments (fuel : nat) (params : value) : T (list resource) :=
  _getCollection fuel listPayments params.

Definition createPayment (data : value) : T resource :=
  required data "data is required" ;;;
  data <- _addProgramToken self data ;;
  response <- doPost self "payments" data VNone ;;
  construct "Payment" response.

Definition retrievePayment (paymentToken : value) : T resource :=
  required paymentToken "paymentToken is required" ;;;
  path <- path_join "payments" [paymentToken] ;;
  response <- doGet self path VNone ;;
  construct "Payment" response.

Definition retrieveAccount (programToken accountToken : value) : T value :=
  required programToken "programToken is required" ;;;
  required accountToken "accountToken is required" ;;;
  path <- path_join "programs" [programToken; VStr "accounts"; accountToken] ;;
  doGet self path VNone.

Definition listAccountBalances (programToken accountToken params : value) : T value :=
  required programToken "programToken is required" ;;;
  required accountToken "accountToken is required" ;;;
  path <- path_join "programs" [programToken; VStr "accounts"; accountToken;
                                VStr "balances"] ;;
  doGet self path params.

Definition listAccountReceipts (programToken accountToken params : value) : T value :=
  required programToken "programToken is required" ;;;
  required accountToken "accountToken is required" ;;;
  path <- path_join "programs" [programToken; VStr "accounts"; accountToken;
                                VStr "receipts"] ;;
  doGet self path params.

Definition retrieveProgram (programToken : value) : T value :=
  required programToken "programToken is required" ;;;
  path <- path_join "programs" [programToken] ;;
  doGet self path VNone.

Definition listTransferMethodConfigurations (params : value) : T value :=
  required_key "userToken" params "userToken is required" ;;;
  doGet self "transfer-method-configurations" params.

Definition retrieveTransferMethodConfiguration (params : value) : T value :=
  required_key "userToken" params "userToken is required" ;;;
  required_key "country" params "country is required" ;;;
  required_key "currency" params "currency is required" ;;;
  required_key "type" params "type is required" ;;;
  required_key "profileType" params "profileType is required" ;;;
  doGet self "transfer-method-configurations" params.

Definition createTransferMethod (userToken cacheToken data : value) : T value :=
  required userToken "userToken is required" ;;;
  required cacheToken "cacheToken is required" ;;;
  let headers := VDict {[ "Json-Cache-Token" := cacheToken ]} in
  path <- path_join "users" [userToken; VStr "transfer-methods"] ;;
  doPost self path data headers.

Definition listWebhooks (params : value) : T (list resource) :=
  response <- doGet self "webhook-notifications" params ;;
  construct_each "Webhook" response.

Definition getWebhooks (fuel : nat) (params : value) : T (list resource) :=
  _getCollection fuel listWebhooks params.

Definition retrieveWebhook (webhookToken : value) : T resource :=
  required webhookToken "webhookToken is required" ;;;
  path <- path_join "webhook-notifications" [webhookToken] ;;
  response <- doGet self path VNone ;;
  construct "Webhook" response.

End Api_methods.

(** ** The methods as a table *)

(** The six listing families: each has a [list*] and a [get*] method. *)
Inductive family :=
| Users | BankAccounts | PrepaidCards | PaperChecks | Payments | Webhooks.

(** [self.list*] called the way [_getCollection] calls [func]: with one
    positional argument. *)
Definition list_method (self : Api) (f : family) (arg : value) : T (list resource) :=
  match f with
  | Users => listUsers self arg
  | BankAccounts => listBankAccounts self arg VNone
  | PrepaidCards => listPrepaidCards self arg VNone
  | PaperChecks => listPaperChecks self arg VNone
  | Payments => listPayments self arg
  | Webhooks => listWebhooks self arg
  end.

Definition get_method (self : Api) (f : family) (fuel : nat) (params : value)
    : T (list resource) :=
  match f with
  | Users => getUsers self fuel params
  | BankAccounts => getBankAccounts self fuel params
  | PrepaidCards => getPrepaidCards self fuel params
  | PaperChecks => getPaperChecks self fuel params
  | Payments => getPayments self fuel params
  | Webhooks => getWebhooks self fuel params
  end.

(** A call of a public method with its arguments. *)
Inductive call :=
| GetUsers (params : value)
| ListUsers (params : value)
| CreateUser (data : value)
| RetrieveUser (userToken : value)
| UpdateUser (userToken data : value)
| ListUserBalances (userToken params : value)
| ListUserReceipts (userToken params : value)
| GetBankAccounts (params : value)
| ListBankAccounts (userToken params : value)
| CreateBankAccount (userToken data : value)
| RetrieveBankAccount (userToken bankAccountToken : value)
| UpdateBankAccount (userToken bankAccountToken data : value)
| CreateBankAccountStatusTransition (userToken bankAccountToken data : value)
| RetrieveBankAccountStatusTransition (userToken bankAccountToken statusTransitionToken : value)
| GetPrepaidCards (params : value)
| ListPrepaidCards (userToken params : value)
| CreatePrepaidCard (userToken data : value)
| RetrievePrepaidCard (userToken prepaidCardToken : value)
| ListPrepaidCardStatusTransitions (userToken prepaidCardToken : value)
| CreatePrepaidCardStatusTransition (userToken prepaidCardToken data : value)
| RetrievePrepaidCardStatusTransition (userToken prepaidCardToken statusTransitionToken : value)
| ListPrepaidCardBalances (userToken prepaidCardToken params : value)
| ListPrepaidCardReceipts (userToken prepaidCardToken params : value)
| GetPaperChecks (params : value)
| ListPaperChecks (userToken params : value)
| CreatePaperCheck (userToken data : value)
| RetrievePaperCheck (userToken paperCheckToken : value)
| UpdatePaperCheck (userToken paperCheckToken data : value)
| CreatePaperCheckStatusTransition (userToken paperCheckToken data : value)
| RetrievePaperCheckStatusTransition (userToken paperCheckToken statusTransitionToken : value)
| GetPayments (params : value)
| ListPayments (params : value)
| CreatePayment (data : value)
| RetrievePayment (paymentToken : value)
| RetrieveAccount (programToken accountToken : value)
| ListAccountBalances (programToken accountToken params : value)
| ListAccountReceipts (programToken accountToken params : value)
| RetrieveProgram (programToken : value)
| ListTransferMethodConfigurations (params : value)
| RetrieveTransferMethodConfiguration (params : value)
| CreateTransferMethod (userToken cacheToken data : value)
| GetWebhooks (params : value)
| ListWebhooks (params : value)
| RetrieveWebhook (webhookToken : value).

(** What a method hands back: a decoded response, a resource, or a list of
    resources. *)
Inductive returned :=
| Response (v : value)
| One (r : resource)
| Many (l : list resource).

Definition returning {W A} (wrap : A -> returned) (m : M W A) : M W returned :=
  x <- m ;; ret (wrap x).

Definition run (self : Api) (fuel : nat) (c : call) : T returned :=
  match c with
  | GetUsers p => returning Many (getUsers self fuel p)
  | ListUsers p => returning Many (listUsers self p)
  | CreateUser d => returning One (createUser self d)
  | RetrieveUser u => returning One (retrieveUser self u)
  | UpdateUser u d => returning One (updateUser self u d)
  | ListUserBalances u p => returning Response (listUserBalances self u p)
  | ListUserReceipts u p => returning Response (listUserReceipts self u p)
  | GetBankAccounts p => returning Many (getBankAccounts self fuel p)
  | ListBankAccounts u p => returning Many (listBankAccounts self u p)
  | CreateBankAccount u d => returning One (createBankAccount self u d)
  | RetrieveBankAccount u b => returning One (retrieveBankAccount self u b)
  | UpdateBankAccount u b d => returning One (updateBankAccount self u b d)
  | CreateBankAccountStatusTransition u b d =>
      returning Response (createBankAccountStatusTransition self u b d)
  | RetrieveBankAccountStatusTransition u b s =>
      returning Response (retrieveBankAccountStatusTransition self u b s)
  | GetPrepaidCards p => returning Many (getPrepaidCards self fuel p)
  | ListPrepaidCards u p => returning Many (listPrepaidCards self u p)
  | CreatePrepaidCard u d => returning One (createPrepaidCard self u d)
  | RetrievePrepaidCard u c => returning One (retrievePrepaidCard self u c)
  | ListPrepaidCardStatusTransitions u c =>
      returning Response (listPrepaidCardStatusTransitions self u c)
  | CreatePrepaidCardStatusTransition u c d =>
      returning Response (createPrepaidCardStatusTransition self u c d)
  | RetrievePrepaidCardStatusTransition u c s =>
      returning Response (retrievePrepaidCardStatusTransition self u c s)
  | ListPrepaidCardBalances u c p => returning Response (listPrepaidCardBalances self u c p)
  | ListPrepaidCardReceipts u c p => returning Response (listPrepaidCardReceipts self u c p)
  | GetPaperChecks p => returning Many (getPaperChecks self fuel p)
  | ListPaperChecks u p => returning Many (listPaperChecks self u p)
  | CreatePaperCheck u d => returning One (createPaperCheck self u d)
  | RetrievePaperCheck u c => returning One (retrievePaperCheck self u c)
  | UpdatePaperCheck u c d => returning One (updatePaperCheck self u c d)
  | CreatePaperCheckStatusTransition u c d =>
      returning Response (createPaperCheckStatusTransition self u c d)
  | RetrievePaperCheckStatusTransition u c s =>
      returning Response (retrievePaperCheckStatusTransition self u c s)
  | GetPayments p => returning Many (getPayments self fuel p)
  | ListPayments p => returning Many (listPayments self p)
  | CreatePayment d => returning One (createPayment self d)
  | RetrievePayment t => returning One (retrievePayment self t)
  | RetrieveAccount g a => returning Response (retrieveAccount self g a)
  | ListAccountBalances g a p => returning Response (listAccountBalances self g a p)
  | ListAccountReceipts g a p => returning Response (listAccountReceipts self g a p)
  | RetrieveProgram g => returning Response (retrieveProgram self g)
  | ListTransferMethodConfigurations p =>
      returning Response (listTransferMethodConfigurations self p)
  | RetrieveTransferMethodConfiguration p =>
      returning Response (retrieveTransferMethodConfiguration self p)
  | CreateTransferMethod u c d => returning Response (createTransferMethod self u c d)
  | GetWebhooks p => returning Many (getWebhooks self fuel p)
  | ListWebhooks p => returning Many (listWebhooks self p)
  | RetrieveWebhook t => returning One (retrieveWebhook self t)
  end.

(** The identifiers and payloads the docstrings mark REQUIRED, by parameter
    name and in signature order, with the values the call passes for them.
    (The [params] of the two transfer-method-configuration methods is
    required through its keys: see [required_keys].) *)
Definition required_arguments (c : call) : list (string * value) :=
  match c with
  | GetUsers _ | ListUsers _ | GetBankAccounts _ | GetPrepaidCards _
  | GetPaperChecks _ | GetPayments _ | ListPayments _
  | ListTransferMethodConfigurations _ | RetrieveTransferMethodConfiguration _
  | GetWebhooks _ | ListWebhooks _ => []
  | CreateUser d | CreatePayment d => [("data", d)]
  | RetrieveUser u | ListUserBalances u _ | ListUserReceipts u _
  | ListBankAccounts u _ | ListPrepaidCards u _ | ListPaperChecks u _ =>
      [("userToken", u)]
  | UpdateUser u d | CreateBankAccount u d | CreatePrepaidCard u d
  | CreatePaperCheck u d => [("userToken", u); ("data", d)]
  | RetrieveBankAccount u b => [("userToken", u); ("bankAccountToken", b)]
  | UpdateBankAccount u b d | CreateBankAccountStatusTransition u b d =>
      [("userToken", u); ("bankAccountToken", b); ("data", d)]
  | RetrieveBankAccountStatusTransition u b s =>
      [("userToken", u); ("bankAccountToken", b); ("statusTransitionToken", s)]
  | RetrievePrepaidCard u c | ListPrepaidCardStatusTransitions u c
  | ListPrepaidCardBalances u c _ | ListPrepaidCardReceipts u c _ =>
      [("userToken", u); ("prepaidCardToken", c)]
  | CreatePrepaidCardStatusTransition u c d =>
      [("userToken", u); ("prepaidCardToken", c); ("data", d)]
  | RetrievePrepaidCardStatusTransition u c s =>
      [("userToken", u); ("prepaidCardToken", c); ("statusTransitionToken", s)]
  | RetrievePaperCheck u c => [("userToken", u); ("paperCheckToken", c)]
  | UpdatePaperCheck u c d | CreatePaperCheckStatusTransition u c d =>
      [("userToken", u); ("paperCheckToken", c); ("data", d)]
  | RetrievePaperCheckStatusTransition u c s =>
      [("userToken", u); ("paperCheckToken", c); ("statusTransitionToken", s)]
  | RetrievePayment t => [("paymentToken", t)]
  | RetrieveAccount g a | ListAccountBalances g a _ | ListAccountReceipts g a _ =>
      [("programToken", g); ("accountToken", a)]
  | RetrieveProgram g => [("programToken", g)]
  | CreateTransferMethod u c _ => [("userToken", u); ("cacheToken", c)]
  | RetrieveWebhook t => [("webhookToken", t)]
  end.

(** The first required argument that is [None] or empty, if any. *)
Definition first_missing (args : list (string * value)) : option (string * value) :=
  find (fun a => negb (truthy a.2)) args.

(** The two methods whose required arguments are keys of [params]. *)
Inductive configuration_method :=
| ListConfigurations
| RetrieveConfiguration.

Definition configuration_call (self : Api) (m : configuration_method) (params : value)
    : T value :=
  match m with
  | ListConfigurations => listTransferMethodConfigurations self params
  | RetrieveConfiguration => retrieveTransferMethodConfiguration self params
  end.

(** The keys the docstrings say must be present in [params], in the order
    they are listed. *)
Definition required_keys (m : configuration_method) : list string :=
  match m with
  | ListConfigurations => ["userToken"]
  | RetrieveConfiguration => ["userToken"; "country"; "currency"; "type"; "profileType"]
  end.

(** The first required key that [params] does not have, if any. *)
Definition first_absent (d : gmap string value) (keys : list string) : option string :=
  find (fun k => negb (bool_decide (k ∈ dom d))) keys.

(** ** A backing dataset

    The server side of the pagination claims: a page request for
    [{offset, limit}] is answered with the [limit] items of the dataset that
    start at position [offset]. *)
Definition served {A} (data : list A) (request : value) : option (list A) :=
  match request with
  | VDict d =>
      match d !! "offset", d !! "limit" with
      | Some (VInt o), Some (VInt l) =>
          if (0 <=? o) && (0 <=? l)
          then Some (firstn (Z.to_nat l) (skipn (Z.to_nat o) data))
          else None
      | _, _ => None
      end
  | _ => None
  end.

(** A page-fetch function over a dataset whose world is the list of page
    requests it has received. *)
Definition dataset_fetch {A} (data : list A) (request : value)
    : M (list value) (list A) :=
  fun log =>
    (match served data request with
     | Some items => Ok items
     | None => Raise (TransportError "bad page request")
     end, (log ++ [request])%list).

(** A transport whose [path] lists a dataset of decoded mappings. *)
Definition dataset_client (path : string) (data : list value)
    : list request -> request -> outcome value :=
  fun _ r =>
    match r with
    | GET p params =>
        if String.eqb p path then
          match served data params with
          | Some items => Ok (VDict {[ "data" := VList items ]})
          | None => Raise (TransportError "bad page request")
          end
        else Raise (TransportError "not found")
    | _ => Raise (TransportError "method not allowed")
    end.

Definition dataset_api (path : string) (data : list value) : Api :=
  {| username := VStr "user"; password := VStr "secret";
     programToken := VStr "prg-1"; server := VStr "https://api.example";
     apiClient := dataset_client path data |}.

(** [n] distinct mappings [{"token": i}]. *)
Definition numbered (n : nat) : list value :=
  map (fun i => VDict {[ "token" := VInt (Z.of_nat i) ]}) (seq 0 n).

(** A transport that answers every request with the same decoded mapping. *)
Definition constant_api (response : value) : Api :=
  {| username := VStr "user"; password := VStr "secret";
     programToken := VStr "prg-1"; server := VStr "https://api.example";
     apiClient := fun _ _ => Ok response |}.

(** ** The accumulator over a backing dataset *)

(** The number of page fetches when [available] items remain from the
    starting offset and [wanted] items are asked for. *)
Definition fetch_count (available wanted : nat) : nat :=
  S (Nat.min (available / 100) ((wanted - 1) / 100)).

(** The first [k] page offsets from [o]: [o], [o + 100], [o + 200], ... *)
Definition offsets (k o : nat) : list Z :=
  map (fun i => Z.of_nat (o + 100 * i)) (seq 0 k).

(** Where the slicing starts according to [params]: the value under [offset],
    or 0 when the key is absent or [None]. *)
Definition starts_at (d : gmap string value) (o : Z) : Prop :=
  match d !! "offset" with
  | Some (VInt z) => z = o
  | Some VNone | None => o = 0
  | Some _ => False
  end.

(** ** Page sequences

    [fetches func o w rs w']: starting in world [w], the requests for the
    pages at offsets [o], [o + 100], ... are answered with the pages [rs];
    every page but the last has at least 100 items, the last has fewer; the
    world after the last request is [w']. *)
Inductive fetches {W A} (func : value -> M W (list A))
    : Z -> W -> list (list A) -> W -> Prop :=
| fetches_short o w r w' :
    func (page (VInt o)) w = (Ok r, w') ->
    (length r < 100)%nat ->
    fetches func o w [r] w'
| fetches_full o w r w1 rs w' :
    func (page (VInt o)) w = (Ok r, w1) ->
    (100 <= length r)%nat ->
    fetches func (o + 100) w1 rs w' ->
    fetches func o w (r :: rs) w'.

(** [params] carries no maximum: the key is absent, or [None]. *)
Definition no_maximum (d : gmap string value) : Prop :=
  match d !! "maximum" with
  | None | Some VNone => True
  | Some _ => False
  end.

(** ** The pagination accumulator as the specification words it

    Section 4.2 of the specification: the inputs are a page-fetch function
    [fetchPage(offset, limit)], an offset that defaults to 0 and an optional
    maximum.  (1) A maximum below 1 gives the empty sequence at once.
    (2) The accumulator starts empty and the chunk size is 100.  (3) Fetch a
    page of 100 at the current offset, append it, advance the offset by 100.
    (4) Stop when the page had fewer than 100 items or the accumulator holds
    at least [maximum] items.  (5) Return the accumulator cut to [maximum]
    items when a maximum is set. *)
Fixpoint accumulate {W A} (fuel : nat) (fetchPage : Z -> Z -> M W (list A))
    (offset : Z) (maximum : option Z) (accumulator : list A) : M W (list A) :=
  match fuel with
  | O => out_of_fuel
  | S fuel' =>
      items <- fetchPage offset 100 ;;
      let accumulator := (accumulator ++ items)%list in
      let short := Z.of_nat (length items) <? 100 in
      let satisfied :=
        match maximum with
        | Some m => m <=? Z.of_nat (length accumulator)
        | None => false
        end in
      if short || satisfied then ret accumulator
      else accumulate fuel' fetchPage (offset + 100) maximum accumulator
  end.

Definition accumulator_spec {W A} (fuel : nat) (fetchPage : Z -> Z -> M W (list A))
    (offset maximum : option Z) : M W (list A) :=
  match maximum with
  | Some m =>
      if m <? 1 then ret []
      else
        all <- accumulate fuel fetchPage (default 0 offset) (Some m) [] ;;
        ret (firstn (Z.to_nat m) all)
  | None => accumulate fuel fetchPage (default 0 offset) None []
  end.

(** The page parameters handed to the list operation. *)
Definition page_parameters (offset limit : Z) : value :=
  VDict {[ "offset" := VInt offset; "limit" := VInt limit ]}.

(** A slicing parameter of [params]: an integer, or nothing when the key is
    absent or [None]; other values are not slicing parameters. *)
Definition slicing_parameter (d : gmap string value) (key : string)
    : option (option Z) :=
  match d !! key with
  | None | Some VNone => Some None
  | Some (VInt z) => Some (Some z)
  | Some _ => None
  end.

(** ** Shapes of a method run *)

(** The [get*] calls, which loop over pages. *)
Definition is_get (c : call) : bool :=
  match c with
  | GetUsers _ | GetBankAccounts _ | GetPrepaidCards _ | GetPaperChecks _
  | GetPayments _ | GetWebhooks _ => true
  | _ => false
  end.

(** A computation that touches no transport: it returns or raises the same
    way in every world and leaves the world as it is. *)
Definition settled {W A} (m : M W A) : Prop :=
  exists o, o <> OutOfFuel /\ forall w, m w = (o, w).

(** A method run that is one round trip at most: it raises before any
    request, or it sends exactly one request; in the second case an error of
    the transport is the error of the method, and an answer goes through a
    continuation that sends nothing. *)
Definition one_round_trip {A} (self : Api) (m : T A) : Prop :=
  forall log,
    (exists e, m log = (Raise e, log)) \/
    (exists q (k : value -> outcome A),
        m log = (match apiClient self log q with
                 | Ok response => k response
                 | Raise e => Raise e
                 | OutOfFuel => OutOfFuel
                 end, (log ++ [q])%list)).

(** ** More page sequences *)

(** [full_pages func o w rs o' w']: starting in world [w], the requests for
    the pages at offsets [o], [o + 100], ... are answered with the pages
    [rs], each of at least 100 items; the next offset is [o'] and the world
    is [w']. *)
Inductive full_pages {W A} (func : value -> M W (list A))
    : Z -> W -> list (list A) -> Z -> W -> Prop :=
| full_pages_nil o w : full_pages func o w [] o w
| full_pages_cons o w r w1 rs o' w' :
    func (page (VInt o)) w = (Ok r, w1) ->
    (100 <= length r)%nat ->
    full_pages func (o + 100) w1 rs o' w' ->
    full_pages func o w (r :: rs) o' w'.

(** The maximum in [params], if any, is an integer above [n]. *)
Definition maximum_above (d : gmap string value) (n : nat) : Prop :=
  match d !! "maximum" with
  | None | Some VNone => True
  | Some (VInt m) => Z.of_nat n < m
  | Some _ => False
  end.

(** A server that answers every request with 100 copies of one item. *)
Definition endless {W A} (x : A) (request : value) : M W (list A) :=
  ret (repeat x 100).

(** ** Tokens and paths *)

(** A token that is a path segment of its own: not empty, no slash at either
    end. *)
Definition plain (t : string) : bool :=
  match t with
  | EmptyString => false
  | _ => negb (String.prefix "/" t) && negb (endswith_slash t)
  end.

Definition is_str (v : value) : bool :=
  match v with VStr _ => true | _ => false end.

(** The arguments a call hands to [os.path.join] after the literal first
    segment, literals left out.  (The cache token of [createTransferMethod]
    goes into a header, a payload into the body: neither is a path token.) *)
Definition path_tokens (c : call) : list value :=
  match c with
  | RetrieveUser u | UpdateUser u _ | ListUserBalances u _ | ListUserReceipts u _
  | ListBankAccounts u _ | CreateBankAccount u _
  | ListPrepaidCards u _ | CreatePrepaidCard u _
  | ListPaperChecks u _ | CreatePaperCheck u _
  | CreateTransferMethod u _ _ => [u]
  | RetrieveBankAccount u t | UpdateBankAccount u t _
  | CreateBankAccountStatusTransition u t _
  | RetrievePrepaidCard u t | ListPrepaidCardStatusTransitions u t
  | CreatePrepaidCardStatusTransition u t _
  | ListPrepaidCardBalances u t _ | ListPrepaidCardReceipts u t _
  | RetrievePaperCheck u t | UpdatePaperCheck u t _
  | CreatePaperCheckStatusTransition u t _
  | RetrieveAccount u t | ListAccountBalances u t _ | ListAccountReceipts u t _ =>
      [u; t]
  | RetrieveBankAccountStatusTransition u t s
  | RetrievePrepaidCardStatusTransition u t s
  | RetrievePaperCheckStatusTransition u t s => [u; t; s]
  | RetrievePayment t | RetrieveProgram t | RetrieveWebhook t => [t]
  | _ => []
  end.

(** The resource class a [list*] call wraps the elements of [data] in. *)
Definition listing (c : call) : option string :=
  match c with
  | ListUsers _ => Some "User"
  | ListBankAccounts _ _ => Some "BankAccount"
  | ListPrepaidCards _ _ => Some "PrepaidCard"
  | ListPaperChecks _ _ => Some "PaperCheck"
  | ListPayments _ => Some "Payment"
  | ListWebhooks _ => Some "Webhook"
  | _ => None
  end.

(** * Properties *)

(** ** The monad and the primitives *)

Lemma bind_ok {W A B} (m : M W A) (k : A -> M W B) w a w' :
  m w = (Ok a, w') -> (x <- m ;; k x) w = k a w'.
Proof. intros H. unfold bind. now rewrite H. Qed.

Lemma bind_raise {W A B} (m : M W A) (k : A -> M W B) w e w' :
  m w = (Raise e, w') -> (x <- m ;; k x) w = (Raise e, w').
Proof. intros H. unfold bind. now rewrite H. Qed.

Lemma required_missing {W A} (v : value) msg (k : M W A) w :
  truthy v = false ->
  (required v msg ;;; k) w = (Raise (HyperwalletException msg), w).
Proof. intros H. unfold bind, required. now rewrite H. Qed.

Lemma required_given {W A} (v : value) msg (k : M W A) w :
  truthy v = true -> (required v msg ;;; k) w = k w.
Proof. intros H. unfold bind, required. now rewrite H. Qed.

Lemma in_dom_lookup key (d : gmap string value) :
  bool_decide (key ∈ dom d) = match d !! key with Some _ => true | None => false end.
Proof.
  destruct (d !! key) as [v|] eqn:E.
  - apply bool_decide_eq_true. apply elem_of_dom. now exists v.
  - apply bool_decide_eq_false. now rewrite not_elem_of_dom.
Qed.

Lemma contains_dict {W} key (d : gmap string value) (w : W) :
  contains key (VDict d) w
  = (Ok (match d !! key with Some _ => true | None => false end), w).
Proof. unfold contains, ret. now rewrite in_dom_lookup. Qed.

Lemma required_key_dict {W A} key (d : gmap string value) msg (k : M W A) w :
  (required_key key (VDict d) msg ;;; k) w
  = match d !! key with
    | Some _ => k w
    | None => (Raise (HyperwalletException msg), w)
    end.
Proof.
  unfold required_key, bind at 1. erewrite bind_ok by apply contains_dict.
  now destruct (d !! key).
Qed.

Lemma page_limit (o : value) :
  forall d, page o = VDict d -> d !! "limit" = Some (VInt chunksize).
Proof.
  intros d [= <-]. rewrite lookup_insert_ne by discriminate. apply lookup_insert_eq.
Qed.

(** ** Program-token injection *)

(** C6. [_addProgramToken] leaves a payload that already has the key
    [programToken] as it is, whatever the value under the key; it adds the
    client's program token to a payload without the key; and injecting twice
    is the same as injecting once. *)
Theorem addProgramToken_idempotent (W : Type) (self : Api) :
  (forall (d : gmap string value) (v : value) (w : W),
      d !! "programToken" = Some v ->
      _addProgramToken self (VDict d) w = (Ok (VDict d), w)) /\
  (forall (d : gmap string value) (w : W),
      d !! "programToken" = None ->
      _addProgramToken self (VDict d) w
      = (Ok (VDict (<["programToken" := programToken self]> d)), w)) /\
  (forall (data : value) (w : W),
      (data' <- _addProgramToken self data ;; _addProgramToken self data') w
      = _addProgramToken self data w).
Proof.
  assert (present : forall (d : gmap string value) v (w : W),
             d !! "programToken" = Some v ->
             _addProgramToken self (VDict d) w = (Ok (VDict d), w)).
  { intros d v w E. unfold _addProgramToken. cbn [isinstance_dict negb].
    erewrite bind_ok by apply contains_dict. now rewrite E. }
  assert (absent : forall (d : gmap string value) (w : W),
             d !! "programToken" = None ->
             _addProgramToken self (VDict d) w
             = (Ok (VDict (<["programToken" := programToken self]> d)), w)).
  { intros d w E. unfold _addProgramToken. cbn [isinstance_dict negb].
    erewrite bind_ok by apply contains_dict. now rewrite E. }
  split; [exact present | split; [exact absent |]].
  intros data w. destruct data as [| b | z | s | l | d];
    try reflexivity.
  destruct (d !! "programToken") as [v|] eqn:E.
  - erewrite bind_ok by (eapply present; eassumption). reflexivity.
  - erewrite bind_ok by (apply absent; assumption).
    rewrite (absent d w E). eapply present. apply lookup_insert_eq.
Qed.

Lemma addProgramToken_idempotent_witness :
  let self := constant_api (VDict ∅) in
  let sent : gmap string value := {[ "programToken" := VStr "prg-2" ]} in
  let fresh : gmap string value := {[ "profileType" := VStr "INDIVIDUAL" ]} in
  _addProgramToken self (VDict sent) tt = (Ok (VDict sent), tt) /\
  _addProgramToken self (VDict fresh) tt
  = (Ok (VDict (<["programToken" := VStr "prg-1"]> fresh)), tt).
Proof.
  intros self sent fresh.
  destruct (addProgramToken_idempotent unit self) as (present & absent & _).
  split.
  - apply (present sent (VStr "prg-2")). reflexivity.
  - apply (absent fresh). reflexivity.
Defined.

(** ** The accumulator: the early exits *)

(** C7. With a maximum below 1 in [params], [_getCollection] returns the
    empty list and leaves the world as it was, whatever the page-fetch
    function is and whatever the fuel: the function is not called. *)
Theorem getCollection_maximum_below_one :
  forall (W A : Type) (func : value -> M W (list A)) (d : gmap string value)
         (m : Z) (fuel : nat) (w : W),
    d !! "maximum" = Some (VInt m) ->
    m < 1 ->
    _getCollection fuel func (VDict d) w = (Ok [], w).
Proof.
  intros W A func d m fuel w Hm Hlt.
  unfold _getCollection, get, bind, ret. rewrite Hm.
  unfold py_or, lt_int. cbn [truthy is_None negb andb cmp_int].
  now rewrite (proj2 (Z.compare_lt_iff m 1) Hlt).
Qed.

Lemma getCollection_maximum_below_one_witness :
  _getCollection 0 (dataset_fetch (numbered 3))
    (VDict {[ "maximum" := VInt (-2) ]}) [] = (Ok [], []).
Proof.
  apply (getCollection_maximum_below_one (list value) value
           (dataset_fetch (numbered 3)) {[ "maximum" := VInt (-2) ]} (-2) 0%nat []).
  - reflexivity.
  - lia.
Defined.

(** C10. Every [get*] method called without [params] (the default, [None])
    raises the interpreter's [AttributeError] from [params.get], not a
    [HyperwalletException], and no request has been sent. *)
Theorem get_without_params_raises_AttributeError :
  forall (self : Api) (f : family) (fuel : nat) (log : list request),
    get_method self f fuel VNone log
    = (Raise (AttributeError "'NoneType' object has no attribute 'get'"), log).
Proof. intros self f fuel log. destruct f; reflexivity. Qed.

(** ** Required arguments *)

Ltac check_arguments :=
  repeat match goal with
         | |- context [truthy ?v] =>
             is_var v; let E := fresh "E" in destruct (truthy v) eqn:E
         end.

(** C5. When a call passes [None] or an empty value for an identifier or a
    payload that the method requires, the method raises
    [HyperwalletException] with the message "<name> is required", where
    <name> is the first of its required arguments that is missing, and the
    log of transport calls is unchanged. *)
Theorem missing_required_argument_raises :
  forall (self : Api) (fuel : nat) (c : call) (name : string) (v : value)
         (log : list request),
    In (name, v) (required_arguments c) ->
    truthy v = false ->
    exists name' v',
      first_missing (required_arguments c) = Some (name', v') /\
      truthy v' = false /\
      run self fuel c log
      = (Raise (HyperwalletException (name' ++ " is required")), log).
Proof.
  intros self fuel c name v log Hin Hv.
  destruct c; cbn [required_arguments] in Hin |- *;
    try (now destruct Hin).
  all: unfold first_missing; cbn [find snd].
  all: unfold run, returning.
  all: cbv [createUser retrieveUser updateUser listUserBalances listUserReceipts
    listBankAccounts createBankAccount retrieveBankAccount updateBankAccount
    createBankAccountStatusTransition retrieveBankAccountStatusTransition
    listPrepaidCards createPrepaidCard retrievePrepaidCard
    listPrepaidCardStatusTransitions createPrepaidCardStatusTransition
    retrievePrepaidCardStatusTransition listPrepaidCardBalances
    listPrepaidCardReceipts listPaperChecks createPaperCheck retrievePaperCheck
    updatePaperCheck createPaperCheckStatusTransition
    retrievePaperCheckStatusTransition createPayment retrievePayment
    retrieveAccount listAccountBalances listAccountReceipts retrieveProgram
    createTransferMethod retrieveWebhook bind required raise ret].
  all: check_arguments; cbn [negb];
    try (eexists _, _; split; [reflexivity | split; [eassumption | reflexivity]]).
  all: exfalso;
    repeat (destruct Hin as [Hin | Hin]; [injection Hin as <- <-; congruence |]);
    assumption.
Qed.

(** [retrieveUser(None)]: the error names [userToken] and nothing is sent. *)
Lemma missing_required_argument_raises_witness :
  exists name' v',
    first_missing [("userToken", VNone)] = Some (name', v') /\
    truthy v' = false /\
    run (constant_api (VDict ∅)) 0 (RetrieveUser VNone) []
    = (Raise (HyperwalletException (name' ++ " is required")), []).
Proof.
  apply (missing_required_argument_raises (constant_api (VDict ∅)) 0%nat
           (RetrieveUser VNone) "userToken" VNone []).
  - simpl. left. reflexivity.
  - reflexivity.
Defined.

Example retrieveUser_None :
  retrieveUser (constant_api (VDict ∅)) VNone []
  = (Raise (HyperwalletException "userToken is required"), []).
Proof. reflexivity. Qed.

(** ** Required query-parameter keys *)

(** The claim C9 also asks for the error when a required key is present with
    an empty value.  The methods test [key not in params] only:
    [listTransferMethodConfigurations({'userToken': ''})] sends the request. *)
Lemma empty_required_key_is_sent :
  let self := constant_api (VDict {[ "data" := VList [] ]}) in
  let params := VDict {[ "userToken" := VStr "" ]} in
  configuration_call self ListConfigurations params []
  = (Ok (VDict {[ "data" := VList [] ]}),
     [GET "transfer-method-configurations" params]) /\
  configuration_call self ListConfigurations params []
  <> (Raise (HyperwalletException "userToken is required"), []).
Proof. split; [reflexivity | discriminate]. Qed.

(** C9, amended. For the two methods whose required arguments are keys of
    [params]: when a required key is absent from the dictionary, the method
    raises [HyperwalletException] naming the first absent required key and
    sends nothing; when every required key is present, whatever its value,
    the request is sent with [params] and the transport's answer is the
    result. *)
Theorem absent_required_key_raises :
  forall (self : Api) (m : configuration_method) (d : gmap string value)
         (log : list request),
    (forall key, In key (required_keys m) -> d !! key = None ->
       exists key',
         first_absent d (required_keys m) = Some key' /\
         d !! key' = None /\
         configuration_call self m (VDict d) log
         = (Raise (HyperwalletException (key' ++ " is required")), log)) /\
    ((forall key, In key (required_keys m) -> is_Some (d !! key)) ->
       configuration_call self m (VDict d) log
       = (apiClient self log (GET "transfer-method-configurations" (VDict d)),
          (log ++ [GET "transfer-method-configurations" (VDict d)])%list)).
Proof.
  intros self m d log. split.
  - intros key Hin Hkey. unfold first_absent.
    destruct m; cbn [required_keys find configuration_call] in Hin |- *;
      unfold listTransferMethodConfigurations, retrieveTransferMethodConfiguration;
      rewrite ?in_dom_lookup.
    + rewrite required_key_dict.
      destruct Hin as [<- | []]. rewrite Hkey. cbn [negb]. now exists "userToken".
    + repeat (rewrite required_key_dict;
              match goal with
              | |- context [d !! ?k] =>
                  let E := fresh "E" in
                  destruct (d !! k) eqn:E; cbn [negb];
                  [rewrite ?in_dom_lookup | now exists k]
              end).
      exfalso.
      repeat (destruct Hin as [<- | Hin]; [congruence |]). assumption.
  - intros Hall.
    destruct m; cbn [required_keys configuration_call] in Hall |- *;
      unfold listTransferMethodConfigurations, retrieveTransferMethodConfiguration.
    + rewrite required_key_dict.
      destruct (Hall "userToken") as [v ->]; [now left |]. reflexivity.
    + repeat (rewrite required_key_dict;
              match goal with
              | |- context [d !! ?k] =>
                  let v := fresh "v" in
                  destruct (Hall k) as [v ->]; [cbn; tauto |]
              end).
      reflexivity.
Qed.

Lemma absent_required_key_raises_witness :
  let self := constant_api (VDict ∅) in
  let d : gmap string value :=
    {[ "userToken" := VStr "usr-1"; "country" := VStr "US" ]} in
  exists key',
    first_absent d (required_keys RetrieveConfiguration) = Some key' /\
    d !! key' = None /\
    configuration_call self RetrieveConfiguration (VDict d) []
    = (Raise (HyperwalletException (key' ++ " is required")), []).
Proof.
  intros self d.
  apply (proj1 (absent_required_key_raises self RetrieveConfiguration d [])
           "currency").
  - simpl. tauto.
  - reflexivity.
Defined.

(** ** Resource wrapping *)

Lemma construct_bound {W} name (x : value) (w : W) :
  name ∈ module_globals -> construct name x w = (Ok (Resource name x), w).
Proof. intros H. unfold construct. now rewrite bool_decide_eq_true_2. Qed.

Lemma Payment_unbound {W} (x : value) (w : W) :
  construct "Payment" x w
  = (Raise (NameError "global name 'Payment' is not defined"), w).
Proof. reflexivity. Qed.

(** C4, on the code. The module imports [User], [BankAccount],
    [PrepaidCard], [PaperCheck] and [Webhook] but not [Payment]: after a
    successful transport answer, [createPayment] and [retrievePayment] raise
    [NameError], and so does [listPayments] as soon as the answer has an
    element. *)
Theorem Payment_methods_raise_NameError :
  let answer := VDict {[ "token" := VStr "pmt-1" ]} in
  let unbound := NameError "global name 'Payment' is not defined" in
  createPayment (constant_api answer) (VDict {[ "amount" := VStr "10.00" ]}) []
  = (Raise unbound,
     [POST "payments"
        (VDict {[ "amount" := VStr "10.00"; "programToken" := VStr "prg-1" ]})
        VNone]) /\
  retrievePayment (constant_api answer) (VStr "pmt-1") []
  = (Raise unbound, [GET "payments/pmt-1" VNone]) /\
  listPayments (constant_api (VDict {[ "data" := VList [answer] ]})) VNone []
  = (Raise unbound, [GET "payments" VNone]).
Proof. repeat split; vm_compute; reflexivity. Qed.

Lemma createPayment_never_returns (self : Api) (data : value) log r log' :
  createPayment self data log <> (Ok r, log').
Proof.
  unfold createPayment, bind, required, _addProgramToken, doPost, transport.
  destruct (truthy data); cbn [negb]; [| discriminate].
  destruct data as [| b | z | s | l | d]; cbn [isinstance_dict negb];
    try discriminate.
  unfold bind, ret. rewrite contains_dict.
  destruct (d !! "programToken"); unfold setitem, ret.
  all: match goal with
       | |- context [apiClient ?c ?l ?q] =>
           destruct (apiClient c l q); discriminate
       end.
Qed.

(** The sibling methods do wrap the answer. *)
Lemma retrieveUser_wraps (self : Api) (token : string) (response : value) log :
  token <> "" ->
  String.prefix "/" token = false ->
  apiClient self log (GET ("users/" ++ token) VNone) = Ok response ->
  retrieveUser self (VStr token) log
  = (Ok (Resource "User" response), (log ++ [GET ("users/" ++ token) VNone])%list).
Proof.
  intros Hne Hslash Hok. unfold retrieveUser.
  rewrite required_given by (destruct token; [congruence | reflexivity]).
  unfold bind, path_join. rewrite Hslash. cbn [String.eqb endswith_slash orb].
  unfold ret, doGet, transport. cbn.
  change ("users" ++ "/" ++ token) with ("users/" ++ token).
  rewrite Hok. reflexivity.
Qed.

(** ** The accumulator over a backing dataset *)

Lemma div_100_step n : (100 <= n)%nat -> (n / 100 = S ((n - 100) / 100))%nat.
Proof.
  intros H. replace n with ((n - 100) + 1 * 100)%nat at 1 by lia.
  rewrite Nat.div_add by lia. lia.
Qed.

Lemma fetch_count_short available wanted :
  (available < 100)%nat -> fetch_count available wanted = 1%nat.
Proof.
  unfold fetch_count. intros H. now rewrite (Nat.div_small available) by lia.
Qed.

Lemma fetch_count_enough available wanted :
  (wanted <= 100)%nat -> fetch_count available wanted = 1%nat.
Proof.
  unfold fetch_count. intros H. rewrite (Nat.div_small (wanted - 1)) by lia. lia.
Qed.

Lemma fetch_count_more available wanted :
  (100 <= available)%nat -> (100 < wanted)%nat ->
  fetch_count available wanted = S (fetch_count (available - 100) (wanted - 100)).
Proof.
  unfold fetch_count. intros Ha Hw.
  rewrite (div_100_step available) by lia.
  rewrite (div_100_step (wanted - 1)) by lia.
  replace (wanted - 1 - 100)%nat with (wanted - 100 - 1)%nat by lia. lia.
Qed.

Lemma fetch_count_covers available wanted :
  (available < 100 * fetch_count available wanted
   \/ wanted <= 100 * fetch_count available wanted)%nat.
Proof.
  unfold fetch_count.
  pose proof (Nat.mul_succ_div_gt available 100).
  pose proof (Nat.mul_succ_div_gt (wanted - 1) 100).
  destruct (Nat.min_spec (available / 100) ((wanted - 1) / 100))
    as [[_ ->] | [_ ->]]; lia.
Qed.

Lemma offsets_succ k o : offsets (S k) o = Z.of_nat o :: offsets k (o + 100).
Proof.
  unfold offsets. cbn [seq map]. f_equal.
  - f_equal. lia.
  - rewrite <- seq_shift, map_map. apply map_ext. intros i. f_equal. lia.
Qed.

Lemma offsets_one o : offsets 1 o = [Z.of_nat o].
Proof. now rewrite offsets_succ. Qed.

Lemma offset_of_params {W} (d : gmap string value) (o : Z) (w : W) :
  starts_at d o ->
  get (VDict d) "offset" VNone w = (Ok (match d !! "offset" with
                                        | Some v => v
                                        | None => VNone
                                        end), w) /\
  py_or (match d !! "offset" with Some v => v | None => VNone end) (VInt 0)
  = VInt o.
Proof.
  unfold starts_at. intros H. split; [reflexivity |].
  destruct (d !! "offset") as [[| b | z | s | l | d'] |]; try contradiction;
    subst; try reflexivity.
  unfold py_or. cbn [truthy]. destruct (Z.eqb_spec o 0); subst; reflexivity.
Qed.

Section Paging.
Context {E A : Type} (data : list A) (ev : Z -> E).
Context (func : value -> M (list E) (list A)).

(** [func] serves [data] in pages of 100 and records each request. *)
Hypothesis func_serves : forall (o : nat) (log : list E),
  func (page (VInt (Z.of_nat o))) log
  = (Ok (firstn 100 (skipn o data)), (log ++ [ev (Z.of_nat o)])%list).

Lemma loop_over_dataset (fuel : nat) :
  forall (o : nat) (results : list A) (log : list E) (m : nat),
    (length results < m)%nat ->
    (fetch_count (length data - o) (m - length results) <= fuel)%nat ->
    _getCollection_loop fuel func (VInt (Z.of_nat m)) (VInt (Z.of_nat o)) results log
    = (Ok (results
           ++ firstn (100 * fetch_count (length data - o) (m - length results))
                (skipn o data))%list,
       (log ++ map ev (offsets
                         (fetch_count (length data - o) (m - length results)) o))%list).
Proof.
  induction fuel as [| fuel IH]; intros o results log m Hm Hfuel.
  - unfold fetch_count in Hfuel. lia.
  - cbn [_getCollection_loop].
    erewrite bind_ok by apply func_serves.
    erewrite bind_ok by reflexivity.
    rewrite length_app, length_take, length_drop.
    destruct (Z.ltb_spec (Z.of_nat (100 `min` (length data - o))) chunksize)
      as [Hshort | Hfull]; unfold chunksize in *.
    + rewrite fetch_count_short by lia.
      now rewrite offsets_one, Nat.mul_1_r.
    + assert (Htruthy : truthy (VInt (Z.of_nat m)) = true).
      { cbn [truthy]. destruct (Z.eqb_spec (Z.of_nat m) 0); [lia | reflexivity]. }
      rewrite Htruthy. cbn [andb]. unfold int_ge. cbn [cmp_int].
      destruct (Z.compare_spec (Z.of_nat m)
                  (Z.of_nat (length results + 100 `min` (length data - o))))
        as [Heq | Hlt | Hgt].
      * rewrite fetch_count_enough by lia.
        now rewrite offsets_one, Nat.mul_1_r.
      * rewrite fetch_count_enough by lia.
        now rewrite offsets_one, Nat.mul_1_r.
      * replace (Z.of_nat o + 100) with (Z.of_nat (o + 100)) by lia.
        rewrite IH; rewrite ?length_app, ?length_take, ?length_drop.
        -- rewrite (fetch_count_more (length data - o) (m - length results)) by lia.
           replace (length data - (o + 100))%nat
             with (length data - o - 100)%nat by lia.
           replace (m - (length results + 100 `min` (length data - o)))%nat
             with (m - length results - 100)%nat by lia.
           set (k := fetch_count _ _).
           rewrite offsets_succ. cbn [map].
           rewrite <- !app_assoc. cbn [app]. do 3 f_equal.
           rewrite <- drop_drop.
           replace (100 * S k)%nat with (100 + 100 * k)%nat by lia.
           apply take_take_drop.
        -- lia.
        -- rewrite (fetch_count_more (length data - o) (m - length results)) in Hfuel
             by lia.
           replace (length data - (o + 100))%nat
             with (length data - o - 100)%nat by lia.
           replace (m - (length results + 100 `min` (length data - o)))%nat
             with (m - length results - 100)%nat by lia.
           lia.
Qed.

(** What [_getCollection] returns over the dataset for a maximum of at
    least 1, and the requests it makes. *)
Lemma getCollection_over_dataset (d : gmap string value) (o : nat) (m : Z)
    (fuel : nat) (log : list E) :
  starts_at d (Z.of_nat o) ->
  d !! "maximum" = Some (VInt m) ->
  1 <= m ->
  (fetch_count (length data - o) (Z.to_nat m) <= fuel)%nat ->
  _getCollection fuel func (VDict d) log
  = (Ok (firstn (Z.to_nat m) (skipn o data)),
     (log ++ map ev (offsets (fetch_count (length data - o) (Z.to_nat m)) o))%list).
Proof.
  intros Ho Hm Hone Hfuel. unfold _getCollection.
  destruct (offset_of_params d (Z.of_nat o) log Ho) as [Hget Hor].
  erewrite bind_ok by exact Hget. rewrite Hor.
  unfold get at 1. rewrite Hm. erewrite bind_ok by reflexivity.
  unfold py_or. cbn [truthy is_None negb andb]. unfold lt_int. cbn [cmp_int].
  destruct (Z.compare_spec m 1) as [Heq | Hlt | Hgt]; try lia.
  all: rewrite <- (Z2Nat.id m) at 1 by lia.
  all: erewrite bind_ok
    by (apply loop_over_dataset; cbn [length]; rewrite ?Nat.sub_0_r; [lia | exact Hfuel]).
  all: cbn [length app]; rewrite Nat.sub_0_r.
  all: unfold slice_to, ret.
  all: destruct (Z.ltb_spec m 0); [lia |].
  all: rewrite take_take; do 2 f_equal.
  all: destruct (Nat.le_gt_cases (Z.to_nat m)
                   (100 * fetch_count (length data - o) (Z.to_nat m)))
    as [Hcap | Hmore]; [now rewrite Nat.min_l by lia |].
  all: destruct (fetch_count_covers (length data - o) (Z.to_nat m))
    as [Hall | Hcap]; [| lia].
  all: rewrite Nat.min_r by lia.
  all: rewrite !take_ge by (rewrite length_drop; lia); reflexivity.
Qed.
End Paging.

Lemma served_page {A} (data : list A) (o : nat) :
  served data (page (VInt (Z.of_nat o))) = Some (firstn 100 (skipn o data)).
Proof.
  unfold served, page.
  rewrite lookup_insert_eq, lookup_insert_ne by discriminate.
  rewrite lookup_insert_eq.
  replace (0 <=? Z.of_nat o) with true by (symmetry; apply Z.leb_le; lia).
  cbn [andb Z.leb Z.compare]. now rewrite Nat2Z.id.
Qed.

Lemma dataset_fetch_serves {A} (data : list A) (o : nat) (log : list value) :
  dataset_fetch data (page (VInt (Z.of_nat o))) log
  = (Ok (firstn 100 (skipn o data)), (log ++ [page (VInt (Z.of_nat o))])%list).
Proof. unfold dataset_fetch. now rewrite served_page. Qed.

(** The count in claim C1 ignores the offset: with three items, offset 2 and
    maximum 3 the accumulator returns the one item left, not min(3, 3). *)
Lemma getCollection_offset_counterexample :
  exists items log,
    _getCollection 1 (dataset_fetch (numbered 3))
      (VDict {[ "offset" := VInt 2; "maximum" := VInt 3 ]}) []
    = (Ok items, log) /\
    length items = 1%nat /\
    length items <> Nat.min 3 (length (numbered 3)).
Proof.
  eexists _, _. split; [vm_compute; reflexivity |].
  split; [reflexivity | vm_compute; discriminate].
Qed.

(** C1, amended. Over a dataset of [M] items, with a maximum of at least 1
    and a starting offset [o], [_getCollection] returns the first
    [min(maximum, M - o)] items of the dataset from position [o] (none when
    [o >= M]); it requests the pages at offsets [o], [o + 100], [o + 200],
    ..., as many as [fetch_count] says, each with a limit of 100, and nothing
    else. *)
Theorem getCollection_returns_bounded_slice :
  forall (A : Type) (data : list A) (d : gmap string value) (o : nat) (m : Z)
         (fuel : nat) (log : list value),
    starts_at d (Z.of_nat o) ->
    d !! "maximum" = Some (VInt m) ->
    1 <= m ->
    (fetch_count (length data - o) (Z.to_nat m) <= fuel)%nat ->
    exists items requests,
      _getCollection fuel (dataset_fetch data) (VDict d) log
      = (Ok items, (log ++ requests)%list) /\
      requests = map (fun z => page (VInt z))
                   (offsets (fetch_count (length data - o) (Z.to_nat m)) o) /\
      Forall (fun request => exists d', request = VDict d'
                                        /\ d' !! "limit" = Some (VInt 100)) requests /\
      items = firstn (Z.to_nat m) (skipn o data) /\
      length items = Nat.min (Z.to_nat m) (length data - o).
Proof.
  intros A data d o m fuel log Ho Hm Hone Hfuel.
  eexists (firstn (Z.to_nat m) (skipn o data)), _. repeat split.
  - apply (getCollection_over_dataset data (fun z => page (VInt z))); auto.
    intros o' log'. apply dataset_fetch_serves.
  - apply Forall_map, Forall_forall. intros z _. eexists. split; [reflexivity |].
    now apply (page_limit (VInt z)).
  - now rewrite length_take, length_drop.
Qed.

Lemma getCollection_returns_bounded_slice_witness :
  exists items requests,
    _getCollection 3 (dataset_fetch (numbered 250))
      (VDict {[ "offset" := VInt 40; "maximum" := VInt 150 ]}) []
    = (Ok items, requests) /\
    requests = [page (VInt 40); page (VInt 140)] /\
    Forall (fun request => exists d', request = VDict d'
                                      /\ d' !! "limit" = Some (VInt 100)) requests /\
    items = firstn 150 (skipn 40 (numbered 250)) /\
    length items = 150%nat.
Proof.
  apply (getCollection_returns_bounded_slice value (numbered 250)
           {[ "offset" := VInt 40; "maximum" := VInt 150 ]} 40%nat 150 3%nat []).
  - reflexivity.
  - reflexivity.
  - lia.
  - vm_compute. lia.
Defined.

(** ** [getUsers] over a dataset *)

Lemma mapM_construct {W} name (xs : list value) (w : W) :
  name ∈ module_globals ->
  mapM (construct name) xs w = (Ok (map (Resource name) xs), w).
Proof.
  intros H. induction xs as [| x xs IH]; [reflexivity |].
  cbn [mapM map]. erewrite bind_ok by now apply construct_bound.
  erewrite bind_ok by exact IH. reflexivity.
Qed.

Lemma listUsers_serves (data : list value) (o : nat) (log : list request) :
  listUsers (dataset_api "users" data) (page (VInt (Z.of_nat o))) log
  = (Ok (firstn 100 (skipn o (map (Resource "User") data))),
     (log ++ [GET "users" (page (VInt (Z.of_nat o)))])%list).
Proof.
  unfold listUsers, doGet, transport.
  erewrite bind_ok; cycle 1.
  { cbn [dataset_api apiClient dataset_client]. cbn [String.eqb Ascii.eqb Bool.eqb].
    rewrite served_page. reflexivity. }
  unfold construct_each, get. rewrite lookup_singleton_eq.
  erewrite bind_ok by reflexivity. cbn [iter]. erewrite bind_ok by reflexivity.
  rewrite mapM_construct by (vm_compute; repeat constructor).
  now rewrite skipn_map, firstn_map.
Qed.

(** The scenario of claim C2 on 250 numbered items: the accumulator stops
    after the second page, so there are two requests, not three. *)
Lemma getUsers_scenario_counterexample :
  let params := VDict {[ "offset" := VInt 0; "maximum" := VInt 120 ]} in
  let outcome_and_log := getUsers (dataset_api "users" (numbered 250)) 3 params [] in
  outcome_and_log.2 = [GET "users" (page (VInt 0)); GET "users" (page (VInt 100))] /\
  outcome_and_log.2
  <> [GET "users" (page (VInt 0)); GET "users" (page (VInt 100));
      GET "users" (page (VInt 200))].
Proof. split; [vm_compute; reflexivity | vm_compute; discriminate]. Qed.

(** C2, amended. Over any dataset of exactly 250 items,
    [getUsers({"offset": 0, "maximum": 120})] returns exactly 120 [User]
    resources, the first 120 items of the dataset, after exactly two page
    requests, at offsets 0 and 100; the second page is cut to fill the cap. *)
Theorem getUsers_scenario :
  forall (data : list value) (fuel : nat) (log : list request),
    length data = 250%nat ->
    (2 <= fuel)%nat ->
    exists users,
      getUsers (dataset_api "users" data) fuel
        (VDict {[ "offset" := VInt 0; "maximum" := VInt 120 ]}) log
      = (Ok users,
         (log ++ [GET "users" (page (VInt 0)); GET "users" (page (VInt 100))])%list) /\
      users = map (Resource "User") (firstn 120 data) /\
      length users = 120%nat.
Proof.
  intros data fuel log Hlen Hfuel.
  exists (map (Resource "User") (firstn 120 data)). split; [| split].
  - unfold getUsers.
    rewrite (getCollection_over_dataset (map (Resource "User") data)
               (fun z => GET "users" (page (VInt z)))
               (listUsers (dataset_api "users" data))
               (listUsers_serves data)
               {[ "offset" := VInt 0; "maximum" := VInt 120 ]} 0%nat 120 fuel log).
    + rewrite length_map, Hlen. cbn [drop]. f_equal; try reflexivity.
      f_equal. change (Z.to_nat 120) with 120%nat. apply firstn_map.
    + reflexivity.
    + reflexivity.
    + lia.
    + rewrite length_map, Hlen. vm_compute. lia.
  - reflexivity.
  - rewrite length_map, length_take, Hlen. reflexivity.
Qed.

Lemma getUsers_scenario_witness :
  exists users,
    getUsers (dataset_api "users" (numbered 250)) 2
      (VDict {[ "offset" := VInt 0; "maximum" := VInt 120 ]}) []
    = (Ok users, [GET "users" (page (VInt 0)); GET "users" (page (VInt 100))]) /\
    users = map (Resource "User") (firstn 120 (numbered 250)) /\
    length users = 120%nat.
Proof.
  apply (getUsers_scenario (numbered 250) 2%nat []).
  - reflexivity.
  - lia.
Defined.

(** ** The accumulator without a maximum *)

Lemma loop_until_short {W A} (func : value -> M W (list A)) o w rs w' :
  fetches func o w rs w' ->
  forall (fuel : nat) (results : list A),
    (length rs <= fuel)%nat ->
    _getCollection_loop fuel func VNone (VInt o) results w
    = (Ok (results ++ concat rs)%list, w').
Proof.
  induction 1 as [o w r w' Hr Hshort | o w r w1 rs w' Hr Hfull _ IH];
    intros [| fuel] results Hfuel; cbn [length] in Hfuel; try lia;
    cbn [_getCollection_loop];
    erewrite bind_ok by exact Hr; erewrite bind_ok by reflexivity;
    unfold chunksize.
  - destruct (Z.ltb_spec (Z.of_nat (length r)) 100); [| lia].
    cbn [concat]. now rewrite app_nil_r.
  - destruct (Z.ltb_spec (Z.of_nat (length r)) 100); [lia |].
    cbn [truthy andb]. rewrite IH by lia. cbn [concat].
    now rewrite app_assoc.
Qed.

Lemma getCollection_until_short {W A} (func : value -> M W (list A))
    (d : gmap string value) (o : Z) (w w' : W) (rs : list (list A)) (fuel : nat) :
  no_maximum d ->
  starts_at d o ->
  fetches func o w rs w' ->
  (length rs <= fuel)%nat ->
  _getCollection fuel func (VDict d) w = (Ok (concat rs), w').
Proof.
  intros Hmax Ho Hrs Hfuel. unfold _getCollection.
  destruct (offset_of_params d o w Ho) as [Hget Hor].
  erewrite bind_ok by exact Hget. rewrite Hor.
  assert (Hnone : get (VDict d) "maximum" VNone w = (Ok VNone, w)).
  { unfold get, no_maximum in *.
    destruct (d !! "maximum") as [[| | | | |] |]; try contradiction; reflexivity. }
  erewrite bind_ok by exact Hnone.
  unfold py_or. cbn [truthy is_None negb andb].
  erewrite bind_ok by (apply loop_until_short; eassumption).
  reflexivity.
Qed.

(** C8. When [params] carries no maximum, and the page-fetch function answers
    the requests at offsets [o], [o + 100], ... with pages of at least 100
    items until one page has fewer, [_getCollection] makes exactly these
    requests, stops after the short page and returns all the pages
    concatenated.  So over a dataset of 50 items it returns the 50 items
    after one request. *)
Theorem getCollection_without_maximum :
  (forall (W A : Type) (func : value -> M W (list A)) (d : gmap string value)
          (o : Z) (w w' : W) (rs : list (list A)) (fuel : nat),
      no_maximum d ->
      starts_at d o ->
      fetches func o w rs w' ->
      (length rs <= fuel)%nat ->
      _getCollection fuel func (VDict d) w = (Ok (concat rs), w')) /\
  (forall (A : Type) (data : list A) (d : gmap string value) (fuel : nat)
          (log : list value),
      no_maximum d ->
      starts_at d 0 ->
      length data = 50%nat ->
      (1 <= fuel)%nat ->
      _getCollection fuel (dataset_fetch data) (VDict d) log
      = (Ok data, (log ++ [page (VInt 0)])%list)).
Proof.
  split.
  - intros W A. apply getCollection_until_short.
  - intros A data d fuel log Hmax Ho Hlen Hfuel.
    rewrite <- (app_nil_r data) at 2. change (data ++ [])%list with (concat [data]).
    apply (getCollection_until_short _ d 0); auto.
    apply fetches_short.
    + pose proof (dataset_fetch_serves data 0 log) as Hpage.
      change (Z.of_nat 0) with 0 in Hpage. rewrite Hpage, skipn_O.
      now rewrite take_ge by lia.
    + lia.
Qed.

(** A dataset of 50 items and no maximum: all 50 items after one request. *)
Lemma getCollection_without_maximum_witness :
  _getCollection 1 (dataset_fetch (numbered 50)) (VDict ∅) []
  = (Ok (concat [numbered 50]), [page (VInt 0)]) /\
  _getCollection 1 (dataset_fetch (numbered 50)) (VDict ∅) []
  = (Ok (numbered 50), [page (VInt 0)]).
Proof.
  destruct getCollection_without_maximum as [general fifty]. split.
  - apply (general (list value) value
             (dataset_fetch (numbered 50)) ∅ 0 [] [page (VInt 0)] [numbered 50] 1%nat).
    + exact I.
    + reflexivity.
    + apply fetches_short.
      * vm_compute. reflexivity.
      * vm_compute. lia.
    + cbn [length]. lia.
  - apply (fifty value (numbered 50) ∅ 1%nat []).
    + exact I.
    + reflexivity.
    + reflexivity.
    + lia.
Defined.

(** ** [get*] against the accumulator of the specification *)

Lemma loop_refines_accumulate {W A} (func : value -> M W (list A))
    (maxv : value) (maximum : option Z) :
  (maxv = VNone /\ maximum = None
   \/ exists m, maxv = VInt m /\ maximum = Some m /\ 1 <= m) ->
  forall (fuel : nat) (o : Z) (results : list A) (w : W),
    _getCollection_loop fuel func maxv (VInt o) results w
    = accumulate fuel (fun offset limit => func (page_parameters offset limit))
        o maximum results w.
Proof.
  intros Hmax. induction fuel as [| fuel IH]; intros o results w; [reflexivity |].
  cbn [_getCollection_loop accumulate]. unfold bind at 1 3.
  change (page_parameters o 100) with (page (VInt o)).
  destruct (func (page (VInt o)) w) as [[r | e |] w1]; try reflexivity.
  unfold bind, iadd, ret, chunksize.
  destruct (Z.of_nat (length r) <? 100); [reflexivity |]. cbn [orb].
  destruct Hmax as [[-> ->] | (m & -> & -> & Hm)].
  - cbn [truthy andb]. apply IH.
  - assert (Htruthy : truthy (VInt m) = true).
    { cbn [truthy]. destruct (Z.eqb_spec m 0); [lia | reflexivity]. }
    rewrite Htruthy. cbn [andb]. unfold int_ge, Z.leb. cbn [cmp_int].
    destruct (m ?= Z.of_nat (length (results ++ r))); try reflexivity. apply IH.
Qed.

Lemma getCollection_refines_accumulator {W A} (func : value -> M W (list A))
    (d : gmap string value) (offset maximum : option Z) (fuel : nat) (w : W) :
  slicing_parameter d "offset" = Some offset ->
  slicing_parameter d "maximum" = Some maximum ->
  _getCollection fuel func (VDict d) w
  = accumulator_spec fuel (fun o l => func (page_parameters o l)) offset maximum w.
Proof.
  unfold slicing_parameter. intros Ho Hm.
  assert (Hstart : starts_at d (default 0 offset)).
  { unfold starts_at.
    destruct (d !! "offset") as [[| | | | |] |]; simplify_eq; reflexivity. }
  unfold _getCollection.
  destruct (offset_of_params d (default 0 offset) w Hstart) as [Hget Hor].
  erewrite bind_ok by exact Hget. rewrite Hor. clear Hget Hor Hstart Ho.
  unfold get, accumulator_spec.
  destruct (d !! "maximum") as [[| | z | | |] |]; simplify_eq;
    erewrite bind_ok by reflexivity; unfold py_or;
    cbn [truthy is_None negb andb].
  - unfold bind. rewrite (loop_refines_accumulate func VNone None) by tauto.
    now destruct (accumulate _ _ _ _ _ _) as [[r | e |] w1].
  - unfold lt_int, Z.ltb. cbn [cmp_int].
    destruct (Z.compare_spec z 1) as [Heq | Hlt | Hgt]; try reflexivity.
    all: unfold bind;
      rewrite (loop_refines_accumulate func (VInt z) (Some z)) by (right; exists z; repeat split; lia);
      destruct (accumulate _ _ _ _ _ _) as [[r | e |] w1]; try reflexivity;
      unfold slice_to, ret; destruct (Z.ltb_spec z 0); [lia | reflexivity].
  - unfold bind. rewrite (loop_refines_accumulate func VNone None) by tauto.
    now destruct (accumulate _ _ _ _ _ _) as [[r | e |] w1].
Qed.

Lemma get_method_unfold (self : Api) (f : family) (fuel : nat) params log :
  get_method self f fuel params log
  = _getCollection fuel (list_method self f) params log.
Proof. destruct f; reflexivity. Qed.

(** How every [get*] method is wired: it is [_getCollection] applied to the
    family's [list*] method called with the page dictionary as its one
    positional argument, and on [params] whose [offset] and [maximum] are
    integers, [None] or absent the loop is the accumulator of the
    specification over that call.  For the families whose [list*] method
    takes a user token first, that one argument is not the query parameters
    (see below). *)
Theorem get_is_accumulator_over_list :
  forall (self : Api) (f : family) (fuel : nat),
    (forall (params : value) (log : list request),
        get_method self f fuel params log
        = _getCollection fuel (list_method self f) params log) /\
    (forall (d : gmap string value) (offset maximum : option Z) (log : list request),
        slicing_parameter d "offset" = Some offset ->
        slicing_parameter d "maximum" = Some maximum ->
        get_method self f fuel (VDict d) log
        = accumulator_spec fuel
            (fun o l => list_method self f (page_parameters o l))
            offset maximum log).
Proof.
  intros self f fuel. split; [apply get_method_unfold |].
  intros d offset maximum log Ho Hm. rewrite get_method_unfold.
  now apply getCollection_refines_accumulator.
Qed.

(** The three families whose [list*] method takes a user token first get the
    page parameters in its place: the path cannot be joined, and every
    [get*] call that reaches the loop raises before any request is sent. *)
Lemma get_user_scoped_raises (self : Api) (f : family) (d : gmap string value)
    (offset maximum : option Z) (fuel : nat) (log : list request) :
  f = BankAccounts \/ f = PrepaidCards \/ f = PaperChecks ->
  slicing_parameter d "offset" = Some offset ->
  slicing_parameter d "maximum" = Some maximum ->
  match maximum with Some m => 1 <= m | None => True end ->
  get_method self f (S fuel) (VDict d) log
  = (Raise (AttributeError "'dict' object has no attribute 'startswith'"), log).
Proof.
  intros Hf Ho Hm Hone.
  rewrite get_method_unfold.
  rewrite (getCollection_refines_accumulator _ d offset maximum (S fuel) log Ho Hm).
  unfold accumulator_spec.
  assert (Hpage : forall o,
             list_method self f (page_parameters o 100) log
             = (Raise (AttributeError "'dict' object has no attribute 'startswith'"),
                log)).
  { intros o. destruct Hf as [-> | [-> | ->]]; reflexivity. }
  destruct maximum as [m |].
  - destruct (Z.ltb_spec m 1); [lia |].
    unfold bind at 1. cbn [accumulate]. unfold bind at 1. now rewrite Hpage.
  - cbn [accumulate]. unfold bind at 1. now rewrite Hpage.
Qed.

(** C3, on the code. [getBankAccounts], [getPrepaidCards] and
    [getPaperChecks] call their [list*] method with the page dictionary in
    the place of the user token and without query parameters: over any
    transport the call raises from [os.path.join] and no request is sent.
    Run as the claim says, with the page dictionary as the query parameters
    of [listBankAccounts], the accumulator returns the 120 bank accounts
    after two requests, as [getUsers] does for users. *)
Theorem user_scoped_get_raises_on_page :
  let params := VDict {[ "offset" := VInt 0; "maximum" := VInt 120 ]} in
  let unjoinable := AttributeError "'dict' object has no attribute 'startswith'" in
  let accounts := dataset_api "users/usr-1/bank-accounts" (numbered 250) in
  getBankAccounts accounts 3 params [] = (Raise unjoinable, []) /\
  getPrepaidCards (dataset_api "users/usr-1/prepaid-cards" (numbered 250)) 3 params []
  = (Raise unjoinable, []) /\
  getPaperChecks (dataset_api "users/usr-1/paper-checks" (numbered 250)) 3 params []
  = (Raise unjoinable, []) /\
  accumulator_spec 3
    (fun o l => listBankAccounts accounts (VStr "usr-1") (page_parameters o l))
    (Some 0) (Some 120) []
  = (Ok (map (Resource "BankAccount") (firstn 120 (numbered 250))),
     [GET "users/usr-1/bank-accounts" (page (VInt 0));
      GET "users/usr-1/bank-accounts" (page (VInt 100))]) /\
  getUsers (dataset_api "users" (numbered 250)) 3 params []
  = (Ok (map (Resource "User") (firstn 120 (numbered 250))),
     [GET "users" (page (VInt 0)); GET "users" (page (VInt 100))]).
Proof. repeat split; vm_compute; reflexivity. Qed.

(** * Further properties of the module *)

(** ** Computations that send nothing *)

Lemma settled_ret {W A} (a : A) : settled (W := W) (ret a).
Proof. exists (Ok a). split; [discriminate | reflexivity]. Qed.

Lemma settled_raise {W A} (e : exn) : settled (W := W) (A := A) (raise e).
Proof. exists (Raise e). split; [discriminate | reflexivity]. Qed.

Lemma settled_bind {W A B} (m : M W A) (k : A -> M W B) :
  settled m -> (forall a, settled (k a)) -> settled (x <- m ;; k x).
Proof.
  intros (o & Ho & Hm) Hk. destruct o as [a | e |]; [| | congruence].
  - destruct (Hk a) as (o' & Ho' & Hka). exists o'. split; [exact Ho' |].
    intros w. unfold bind. now rewrite Hm, Hka.
  - exists (Raise e). split; [discriminate |].
    intros w. unfold bind. now rewrite Hm.
Qed.

Lemma settled_if {W A} (b : bool) (m1 m2 : M W A) :
  settled m1 -> settled m2 -> settled (if b then m1 else m2).
Proof. now destruct b. Qed.

Lemma settled_required {W} v msg : settled (W := W) (required v msg).
Proof. unfold required. apply settled_if; [apply settled_raise | apply settled_ret]. Qed.

Lemma settled_get {W} o key dflt : settled (W := W) (get o key dflt).
Proof. destruct o; first [apply settled_ret | apply settled_raise]. Qed.

Lemma settled_contains {W} key v : settled (W := W) (contains key v).
Proof. destruct v; first [apply settled_ret | apply settled_raise]. Qed.

Lemma settled_setitem {W} c key v : settled (W := W) (setitem c key v).
Proof. destruct c; first [apply settled_ret | apply settled_raise]. Qed.

Lemma settled_iter {W} v : settled (W := W) (iter v).
Proof. destruct v; first [apply settled_ret | apply settled_raise]. Qed.

Lemma settled_required_key {W} key params msg :
  settled (W := W) (required_key key params msg).
Proof.
  apply settled_bind; [apply settled_contains |].
  intros present. apply settled_if; [apply settled_raise | apply settled_ret].
Qed.

Lemma settled_path_join {W} (p : list value) :
  forall path, settled (W := W) (path_join path p).
Proof.
  induction p as [| v p IH]; intros path; [apply settled_ret |].
  destruct v; try apply settled_raise.
  cbn [path_join]. repeat apply settled_if; apply IH.
Qed.

Lemma settled_construct {W} name x : settled (W := W) (construct name x).
Proof. apply settled_if; [apply settled_ret | apply settled_raise]. Qed.

Lemma settled_mapM {W A B} (f : A -> M W B) (l : list A) :
  (forall a, settled (f a)) -> settled (mapM f l).
Proof.
  intros Hf. induction l as [| a l IH]; [apply settled_ret |].
  cbn [mapM]. apply settled_bind; [apply Hf |]. intros y.
  apply settled_bind; [apply IH |]. intros ys. apply settled_ret.
Qed.

Lemma settled_construct_each {W} name response :
  settled (W := W) (construct_each name response).
Proof.
  apply settled_bind; [apply settled_get |]. intros data.
  apply settled_bind; [apply settled_iter |]. intros xs.
  apply settled_mapM. intros x. apply settled_construct.
Qed.

Lemma settled_addProgramToken {W} self data :
  settled (W := W) (_addProgramToken self data).
Proof.
  apply settled_if; [apply settled_raise |].
  apply settled_bind; [apply settled_contains |]. intros present.
  apply settled_if; [apply settled_ret | apply settled_setitem].
Qed.

(** ** One round trip *)

Lemma round_trip_after {A} self (m : M (list request) unit) (k : T A) :
  settled m -> one_round_trip self k -> one_round_trip self (m ;;; k).
Proof.
  intros (o & Ho & Hm) Hk log. unfold bind. rewrite Hm.
  destruct o as [[] | e |]; [apply Hk | | congruence].
  left. now exists e.
Qed.

Lemma round_trip_bind {A B} self (m : T A) (k : A -> T B) :
  settled m -> (forall a, one_round_trip self (k a)) ->
  one_round_trip self (x <- m ;; k x).
Proof.
  intros (o & Ho & Hm) Hk log. unfold bind. rewrite Hm.
  destruct o as [a | e |]; [apply Hk | | congruence].
  left. now exists e.
Qed.

Lemma round_trip_transport {A} self q (k : value -> T A) :
  (forall response, settled (k response)) ->
  one_round_trip self (response <- transport self q ;; k response).
Proof.
  intros Hk log. right. exists q, (fun response => (k response []).1).
  unfold bind, transport. destruct (apiClient self log q) as [r | e |]; try reflexivity.
  destruct (Hk r) as (o & _ & Hkr). now rewrite !Hkr.
Qed.

Lemma round_trip_transport_last self q : one_round_trip self (transport self q).
Proof.
  intros log. right. exists q, Ok. unfold transport.
  now destruct (apiClient self log q).
Qed.

Lemma round_trip_then {A B} self (m : T A) (k : A -> T B) :
  one_round_trip self m -> (forall a, settled (k a)) ->
  one_round_trip self (x <- m ;; k x).
Proof.
  intros Hm Hk log. unfold bind.
  destruct (Hm log) as [(e & ->) | (q & k' & ->)].
  - left. now exists e.
  - right.
    exists q, (fun response => match k' response with
                               | Ok a => (k a []).1
                               | Raise e => Raise e
                               | OutOfFuel => OutOfFuel
                               end).
    destruct (apiClient self log q) as [r | e |]; try reflexivity.
    destruct (k' r) as [a | e |]; try reflexivity.
    destruct (Hk a) as (o & _ & Hka). now rewrite !Hka.
Qed.

Ltac settle :=
  repeat first
    [ apply settled_ret | apply settled_raise | apply settled_required
    | apply settled_required_key | apply settled_path_join
    | apply settled_construct | apply settled_construct_each
    | apply settled_addProgramToken ].

Ltac round_trip :=
  repeat first
    [ apply round_trip_after; [solve [settle] |]
    | apply round_trip_bind; [solve [settle] | intros ?]
    | apply round_trip_transport; intros ?; solve [settle]
    | apply round_trip_transport_last ].

(** X1. Every method other than the six [get*] is one round trip at most:
    it raises before any request is sent, or it sends exactly one request,
    and then an error raised by the transport is raised by the method
    unchanged (it is neither caught nor retried). *)
Theorem every_call_is_one_round_trip :
  forall (self : Api) (fuel : nat) (c : call),
    is_get c = false -> one_round_trip self (run self fuel c).
Proof.
  intros self fuel c Hc.
  destruct c; try discriminate Hc; cbn [run]; unfold returning;
    (apply round_trip_then; [| intros ?; apply settled_ret]).
  all: unfold listUsers, createUser, retrieveUser, updateUser, listUserBalances,
    listUserReceipts, listBankAccounts, createBankAccount, retrieveBankAccount,
    updateBankAccount, createBankAccountStatusTransition,
    retrieveBankAccountStatusTransition, listPrepaidCards, createPrepaidCard,
    retrievePrepaidCard, listPrepaidCardStatusTransitions,
    createPrepaidCardStatusTransition, retrievePrepaidCardStatusTransition,
    listPrepaidCardBalances, listPrepaidCardReceipts, listPaperChecks,
    createPaperCheck, retrievePaperCheck, updatePaperCheck,
    createPaperCheckStatusTransition, retrievePaperCheckStatusTransition,
    listPayments, createPayment, retrievePayment, retrieveAccount,
    listAccountBalances, listAccountReceipts, retrieveProgram,
    listTransferMethodConfigurations, retrieveTransferMethodConfiguration,
    createTransferMethod, listWebhooks, retrieveWebhook, doGet, doPost, doPut.
  all: round_trip.
Qed.

Lemma every_call_is_one_round_trip_witness :
  one_round_trip (constant_api (VDict ∅)) 
    (run (constant_api (VDict ∅)) 0
       (UpdateUser (VStr "usr-1") (VDict {[ "email" := VStr "a@b.c" ]}))).
Proof.
  apply (every_call_is_one_round_trip (constant_api (VDict ∅)) 0%nat
           (UpdateUser (VStr "usr-1") (VDict {[ "email" := VStr "a@b.c" ]}))).
  reflexivity.
Defined.

(** ** The accumulator against an arbitrary page-fetch function *)

(** X2. Whatever the page-fetch function returns (short pages, pages longer
    than the limit), a result of [_getCollection] with an integer maximum
    never has more items than the maximum. *)
Theorem getCollection_never_exceeds_maximum :
  forall (W A : Type) (func : value -> M W (list A)) (d : gmap string value)
         (m : Z) (fuel : nat) (w w' : W) (items : list A),
    d !! "maximum" = Some (VInt m) ->
    _getCollection fuel func (VDict d) w = (Ok items, w') ->
    (length items <= Z.to_nat m)%nat.
Proof.
  intros W A func d m fuel w w' items Hm.
  unfold _getCollection, get, bind, ret. rewrite Hm.
  unfold py_or. cbn [truthy is_None negb andb].
  destruct (lt_int (VInt m) 1) eqn:Hlt.
  - intros [= <- _]. cbn [length]. lia.
  - destruct (_getCollection_loop _ _ _ _ _ _) as [[results | e |] w1];
      try discriminate.
    unfold slice_to, ret. unfold lt_int in Hlt. cbn [cmp_int] in Hlt.
    destruct (Z.compare_spec m 1); try discriminate;
      (destruct (Z.ltb_spec m 0); [lia |]);
      intros [= <- _]; rewrite length_take; lia.
Qed.

Lemma getCollection_never_exceeds_maximum_witness :
  (length (firstn 5 (repeat VNone 100)) <= Z.to_nat 5)%nat.
Proof.
  apply (getCollection_never_exceeds_maximum unit value (endless VNone)
           {[ "maximum" := VInt 5 ]} 5 1%nat tt tt).
  - reflexivity.
  - reflexivity.
Defined.

Lemma loop_with_maximum_ends {W A} (func : value -> M W (list A)) (m : Z) :
  (forall request w, (func request w).1 <> OutOfFuel) ->
  forall (fuel : nat) (offset : value) (results : list A) (w : W),
    Z.of_nat (length results) < m ->
    m - Z.of_nat (length results) <= 100 * Z.of_nat fuel ->
    (_getCollection_loop fuel func (VInt m) offset results w).1 <> OutOfFuel.
Proof.
  intros Hfunc. induction fuel as [| fuel IH]; intros offset results w Hlen Hfuel;
    [lia |].
  cbn [_getCollection_loop]. unfold bind at 1.
  pose proof (Hfunc (page offset) w) as Hpage.
  destruct (func (page offset) w) as [[r | e |] w1]; cbn [fst] in *;
    [| discriminate | congruence].
  unfold bind. destruct (iadd offset chunksize w1) as [[offset' | e |] w2] eqn:Hadd;
    [| discriminate |].
  - unfold chunksize.
    destruct (Z.ltb_spec (Z.of_nat (length r)) 100); [discriminate |].
    assert (Htruthy : truthy (VInt m) = true).
    { cbn [truthy]. destruct (Z.eqb_spec m 0); [lia | reflexivity]. }
    rewrite Htruthy. cbn [andb]. unfold int_ge. cbn [cmp_int].
    destruct (Z.compare_spec m (Z.of_nat (length (results ++ r))));
      try discriminate.
    apply IH; rewrite length_app in *; lia.
  - destruct offset; discriminate Hadd.
Qed.

(** X3. With an integer maximum the loop always ends: if the page-fetch
    function itself returns or raises on every request, [_getCollection]
    returns or raises within [ceil(maximum / 100)] iterations, whatever the
    pages contain. *)
Theorem getCollection_with_maximum_terminates :
  forall (W A : Type) (func : value -> M W (list A)) (d : gmap string value)
         (m : Z) (fuel : nat) (w : W),
    (forall request w0, (func request w0).1 <> OutOfFuel) ->
    d !! "maximum" = Some (VInt m) ->
    m <= 100 * Z.of_nat fuel ->
    (_getCollection fuel func (VDict d) w).1 <> OutOfFuel.
Proof.
  intros W A func d m fuel w Hfunc Hm Hfuel.
  unfold _getCollection, get, bind, ret. rewrite Hm.
  unfold py_or. cbn [truthy is_None negb andb].
  unfold lt_int. cbn [cmp_int].
  destruct (Z.compare_spec m 1); cbn [fst]; try discriminate.
  all: pose proof (loop_with_maximum_ends func m Hfunc fuel
                     (if truthy match d !! "offset" with
                                | Some v => v
                                | None => VNone
                                end
                      then match d !! "offset" with Some v => v | None => VNone end
                      else VInt 0) [] w) as Hloop.
  all: cbn [length] in Hloop.
  all: destruct (_getCollection_loop _ _ _ _ _ _) as [[results | e |] w1];
    cbn [fst] in *; try discriminate; try (apply Hloop; lia).
  all: unfold slice_to, ret; cbn [fst]; discriminate.
Qed.

Lemma getCollection_with_maximum_terminates_witness :
  (_getCollection 3 (endless (W := unit) VNone)
     (VDict {[ "maximum" := VInt 250 ]}) tt).1 <> OutOfFuel.
Proof.
  apply (getCollection_with_maximum_terminates unit value (endless VNone)
           {[ "maximum" := VInt 250 ]} 250 3%nat tt).
  - intros request w0. discriminate.
  - reflexivity.
  - lia.
Defined.

Lemma loop_without_maximum_runs_on {W A} (func : value -> M W (list A)) :
  (forall request w, exists r w',
      func request w = (Ok r, w') /\ (100 <= length r)%nat) ->
  forall (fuel : nat) (o : Z) (results : list A) (w : W),
    (_getCollection_loop fuel func VNone (VInt o) results w).1 = OutOfFuel.
Proof.
  intros Hfunc. induction fuel as [| fuel IH]; intros o results w; [reflexivity |].
  cbn [_getCollection_loop].
  destruct (Hfunc (page (VInt o)) w) as (r & w' & Hr & Hfull).
  erewrite bind_ok by exact Hr. erewrite bind_ok by reflexivity.
  unfold chunksize. destruct (Z.ltb_spec (Z.of_nat (length r)) 100); [lia |].
  cbn [truthy andb]. apply IH.
Qed.

(** X4. Without a maximum the loop ends only at a short page: against a
    page-fetch function that answers every request with at least 100 items,
    [_getCollection] is still looping after any number of iterations. *)
Theorem getCollection_without_maximum_may_not_terminate :
  forall (W A : Type) (func : value -> M W (list A)) (d : gmap string value)
         (o : Z) (fuel : nat) (w : W),
    (forall request w0, exists r w',
        func request w0 = (Ok r, w') /\ (100 <= length r)%nat) ->
    no_maximum d ->
    starts_at d o ->
    (_getCollection fuel func (VDict d) w).1 = OutOfFuel.
Proof.
  intros W A func d o fuel w Hfunc Hmax Ho. unfold _getCollection.
  destruct (offset_of_params d o w Ho) as [Hget Hor].
  erewrite bind_ok by exact Hget. rewrite Hor.
  assert (Hnone : get (VDict d) "maximum" VNone w = (Ok VNone, w)).
  { unfold get, no_maximum in *.
    destruct (d !! "maximum") as [[| | | | |] |]; try contradiction; reflexivity. }
  erewrite bind_ok by exact Hnone.
  unfold py_or. cbn [truthy is_None negb andb]. unfold bind.
  pose proof (loop_without_maximum_runs_on func Hfunc fuel o [] w) as Hloop.
  destruct (_getCollection_loop _ _ _ _ _ _) as [[results | e |] w1];
    cbn [fst] in Hloop; try discriminate. reflexivity.
Qed.

Lemma getCollection_without_maximum_may_not_terminate_witness :
  (_getCollection 1000 (endless (W := unit) VNone) (VDict ∅) tt).1 = OutOfFuel.
Proof.
  apply (getCollection_without_maximum_may_not_terminate unit value
           (endless VNone) ∅ 0 1000%nat tt).
  - intros request w0. exists (repeat VNone 100), w0. split; [reflexivity |].
    rewrite repeat_length. lia.
  - exact I.
  - reflexivity.
Defined.

Lemma maximum_above_cases (d : gmap string value) (n : nat) :
  maximum_above d n ->
  exists maxv,
    (forall W (w : W), get (VDict d) "maximum" VNone w = (Ok maxv, w)) /\
    (maxv = VNone \/ exists m, maxv = VInt m /\ Z.of_nat n < m).
Proof.
  unfold maximum_above, get.
  destruct (d !! "maximum") as [[| | m | | |] |]; try contradiction; intros H.
  - exists VNone. split; [reflexivity | now left].
  - exists (VInt m). split; [reflexivity | right; now exists m].
  - exists VNone. split; [reflexivity | now left].
Qed.

Lemma loop_goes_on (maxv : value) (n : nat) :
  (maxv = VNone \/ exists m, maxv = VInt m /\ Z.of_nat n < m) ->
  negb (is_None (py_or VNone maxv)) && lt_int (py_or VNone maxv) 1 = false /\
  truthy maxv && int_ge (Z.of_nat n) maxv = false.
Proof.
  intros [-> | (m & -> & Hm)]; [split; reflexivity |].
  unfold py_or, lt_int, int_ge. cbn [truthy is_None negb andb cmp_int].
  split.
  - destruct (Z.compare_spec m 1); try reflexivity; lia.
  - destruct (Z.compare_spec m (Z.of_nat n)); try lia;
      now rewrite andb_false_r.
Qed.

Lemma loop_fails_with_page {W A} (func : value -> M W (list A)) (maxv : value)
    o w rs o' w1 e w2 :
  full_pages func o w rs o' w1 ->
  func (page (VInt o')) w1 = (Raise e, w2) ->
  forall (fuel : nat) (results : list A),
    (maxv = VNone
     \/ exists m, maxv = VInt m
                  /\ Z.of_nat (length results + length (concat rs)) < m) ->
    (length rs < fuel)%nat ->
    _getCollection_loop fuel func maxv (VInt o) results w = (Raise e, w2).
Proof.
  induction 1 as [o w | o w r w1 rs o' w' Hr Hfull _ IH];
    intros Hfail [| fuel] results Hmax Hfuel; cbn [length] in Hfuel; try lia;
    cbn [_getCollection_loop].
  - now erewrite bind_raise by exact Hfail.
  - erewrite bind_ok by exact Hr. erewrite bind_ok by reflexivity.
    unfold chunksize. destruct (Z.ltb_spec (Z.of_nat (length r)) 100); [lia |].
    cbn [concat] in Hmax. rewrite length_app in Hmax.
    assert (Hon : truthy maxv && int_ge (Z.of_nat (length (results ++ r))) maxv
                  = false).
    { apply loop_goes_on. destruct Hmax as [-> | (m & -> & Hm)]; [now left |].
      right. exists m. split; [reflexivity |]. rewrite length_app. lia. }
    rewrite Hon. apply IH; [exact Hfail | | lia].
    destruct Hmax as [-> | (m & -> & Hm)]; [now left |].
    right. exists m. split; [reflexivity |]. rewrite length_app. lia.
Qed.

(** X5. A failing page fails the whole call: when the page-fetch function
    has answered some full pages and raises on the next request (before the
    maximum is reached), [_getCollection] raises that same error; the pages
    already accumulated are not returned. *)
Theorem getCollection_propagates_page_failure :
  forall (W A : Type) (func : value -> M W (list A)) (d : gmap string value)
         (o o' : Z) (w w1 w2 : W) (rs : list (list A)) (e : exn) (fuel : nat),
    starts_at d o ->
    maximum_above d (length (concat rs)) ->
    full_pages func o w rs o' w1 ->
    func (page (VInt o')) w1 = (Raise e, w2) ->
    (length rs < fuel)%nat ->
    _getCollection fuel func (VDict d) w = (Raise e, w2).
Proof.
  intros W A func d o o' w w1 w2 rs e fuel Ho Hmax Hrs Hfail Hfuel.
  unfold _getCollection.
  destruct (offset_of_params d o w Ho) as [Hget Hor].
  erewrite bind_ok by exact Hget. rewrite Hor.
  destruct (maximum_above_cases d _ Hmax) as (maxv & Hmaxv & Hcases).
  erewrite bind_ok by apply Hmaxv.
  destruct (loop_goes_on maxv _ Hcases) as [-> _].
  assert (Hsame : py_or VNone maxv = maxv) by reflexivity. rewrite Hsame.
  erewrite bind_raise; [reflexivity |].
  eapply loop_fails_with_page; eauto.
Qed.

Lemma getCollection_propagates_page_failure_witness :
  let data := numbered 150 in
  let func request : M (list value) (list value) :=
    fun log => if bool_decide (length log = 1%nat)
               then (Raise (TransportError "gateway timeout"), (log ++ [request])%list)
               else dataset_fetch data request log in
  _getCollection 2 func (VDict ∅) []
  = (Raise (TransportError "gateway timeout"), [page (VInt 0); page (VInt 100)]).
Proof.
  intros data func.
  apply (getCollection_propagates_page_failure (list value) value func ∅
           0 100 [] [page (VInt 0)] [page (VInt 0); page (VInt 100)]
           [firstn 100 data] (TransportError "gateway timeout") 2%nat).
  - reflexivity.
  - exact I.
  - eapply full_pages_cons; [vm_compute; reflexivity | vm_compute; lia |].
    apply full_pages_nil.
  - reflexivity.
  - cbn [length]. lia.
Defined.

(** X6. A string offset is passed to the server as it is and then breaks the
    loop: with a non-empty string under [offset], [_getCollection] sends one
    request carrying that string and, when it is answered, raises
    [TypeError] from [offset += chunksize]; the page is not returned. *)
Theorem getCollection_string_offset_raises :
  forall (W A : Type) (func : value -> M W (list A)) (d : gmap string value)
         (s : string) (fuel : nat) (w w' : W) (r : list A),
    d !! "offset" = Some (VStr s) ->
    s <> "" ->
    maximum_above d 0 ->
    func (page (VStr s)) w = (Ok r, w') ->
    _getCollection (S fuel) func (VDict d) w
    = (Raise (TypeError "cannot concatenate 'str' and 'int' objects"), w').
Proof.
  intros W A func d s fuel w w' r Ho Hs Hmax Hr.
  unfold _getCollection. unfold get at 1. rewrite Ho.
  erewrite bind_ok by reflexivity.
  assert (Hor : py_or (VStr s) (VInt 0) = VStr s).
  { unfold py_or. cbn [truthy]. destruct s; [congruence | reflexivity]. }
  rewrite Hor.
  destruct (maximum_above_cases d _ Hmax) as (maxv & Hmaxv & Hcases).
  erewrite bind_ok by apply Hmaxv.
  destruct (loop_goes_on maxv _ Hcases) as [-> _].
  erewrite bind_raise; [reflexivity |].
  cbn [_getCollection_loop]. erewrite bind_ok by exact Hr.
  now erewrite bind_raise by reflexivity.
Qed.

Lemma getCollection_string_offset_raises_witness :
  let func request : M (list value) (list value) :=
    fun log => (Ok [VStr "item"], (log ++ [request])%list) in
  _getCollection 1 func (VDict {[ "offset" := VStr "ten" ]}) []
  = (Raise (TypeError "cannot concatenate 'str' and 'int' objects"),
     [page (VStr "ten")]).
Proof.
  intros func.
  apply (getCollection_string_offset_raises (list value) value func
           {[ "offset" := VStr "ten" ]} "ten" 0%nat [] [page (VStr "ten")]
           [VStr "item"]).
  - reflexivity.
  - discriminate.
  - exact I.
  - reflexivity.
Defined.

(** ** Paths *)

Lemma append_assoc (a b c : string) : (a ++ b) ++ c = a ++ b ++ c.
Proof.
  induction a as [| x a IH]; [reflexivity |].
  change (String x ((a ++ b) ++ c) = String x (a ++ b ++ c)). now rewrite IH.
Qed.

Lemma endswith_slash_append (a b : string) :
  b <> "" -> endswith_slash (a ++ b) = endswith_slash b.
Proof.
  intros Hb. induction a as [| x a IH]; [reflexivity |].
  change (String x a ++ b) with (String x (a ++ b)). cbn [endswith_slash].
  destruct (a ++ b) eqn:E; [| exact IH].
  destruct a; [exact (False_ind _ (Hb E)) | discriminate E].
Qed.

Lemma plain_spec (t : string) :
  plain t = true ->
  t <> "" /\ String.prefix "/" t = false /\ endswith_slash t = false.
Proof.
  unfold plain. destruct t as [| x t]; [discriminate |].
  intros [H1 H2]%andb_prop. repeat split; [discriminate | |].
  - now apply negb_true_iff in H1.
  - now apply negb_true_iff in H2.
Qed.

Lemma path_join_plain {W} (t : string) (p : list value) (path : string) (w : W) :
  path <> "" -> endswith_slash path = false -> plain t = true ->
  path_join path (VStr t :: p) w = path_join (path ++ "/" ++ t) p w
  /\ path ++ "/" ++ t <> "" /\ endswith_slash (path ++ "/" ++ t) = false.
Proof.
  intros Hpath Hend (Ht & Hpre & Hslash)%plain_spec. split; [| split].
  - cbn [path_join]. rewrite Hpre, Hend.
    destruct path; [congruence | reflexivity].
  - destruct path; [congruence | discriminate].
  - rewrite endswith_slash_append by (destruct t; discriminate).
    now rewrite endswith_slash_append.
Qed.

Lemma path_join_absolute {W} (t : string) (path : string) (w : W) :
  String.prefix "/" t = true -> path_join path [VStr t] w = (Ok t, w).
Proof. intros H. cbn [path_join]. now rewrite H. Qed.

Lemma path_join_non_string {W} (p : list value) :
  forall (path : string) (v : value) (w : W),
    find (fun x => negb (is_str x)) p = Some v ->
    path_join path p w
    = (Raise (AttributeError
                ("'" ++ type_name v ++ "' object has no attribute 'startswith'")), w).
Proof.
  induction p as [| x p IH]; intros path v w Hfind; [discriminate |].
  cbn [find] in Hfind.
  destruct x; cbn [is_str negb] in Hfind; try (injection Hfind as <-; reflexivity).
  cbn [path_join].
  destruct (String.prefix "/" s); [| destruct (_ || _)]; now apply IH.
Qed.

Lemma returning_raise {W A} (wrap : A -> returned) (m : M W A) w e w' :
  m w = (Raise e, w') -> returning wrap m w = (Raise e, w').
Proof. intros H. unfold returning. now apply bind_raise. Qed.

Ltac all_given H :=
  unfold first_missing in H; cbn [find snd] in H;
  repeat match type of H with
         | context [truthy ?v] =>
             let E := fresh "E" in
             destruct (truthy v) eqn:E; cbn [negb] in H; [| discriminate H]
         end.

(** X7. A required token that is given but is not a string cannot be joined
    into the path: when no required argument is missing and some path token
    is not a string, the method raises [AttributeError] for the first such
    token, and no request is sent. *)
Theorem non_string_token_raises :
  forall (self : Api) (fuel : nat) (c : call) (v : value) (log : list request),
    first_missing (required_arguments c) = None ->
    find (fun x => negb (is_str x)) (path_tokens c) = Some v ->
    run self fuel c log
    = (Raise (AttributeError
                ("'" ++ type_name v ++ "' object has no attribute 'startswith'")),
       log).
Proof.
  intros self fuel c v log Hreq Hfind.
  destruct c; cbn [path_tokens required_arguments] in *; try discriminate Hfind.
  all: all_given Hreq; cbn [run]; apply returning_raise.
  all: unfold retrieveUser, updateUser, listUserBalances,
    listUserReceipts, listBankAccounts, createBankAccount, retrieveBankAccount,
    updateBankAccount, createBankAccountStatusTransition,
    retrieveBankAccountStatusTransition, listPrepaidCards, createPrepaidCard,
    retrievePrepaidCard, listPrepaidCardStatusTransitions,
    createPrepaidCardStatusTransition, retrievePrepaidCardStatusTransition,
    listPrepaidCardBalances, listPrepaidCardReceipts, listPaperChecks,
    createPaperCheck, retrievePaperCheck, updatePaperCheck,
    createPaperCheckStatusTransition, retrievePaperCheckStatusTransition,
    retrievePayment, retrieveAccount, listAccountBalances, listAccountReceipts,
    retrieveProgram, createTransferMethod, retrieveWebhook.
  all: rewrite !required_given by assumption.
  all: apply bind_raise; apply path_join_non_string.
  all: cbn [find is_str negb]; exact Hfind.
Qed.

Lemma non_string_token_raises_witness :
  run (constant_api (VDict ∅)) 0
    (RetrieveBankAccount (VStr "usr-1") (VInt 42)) []
  = (Raise (AttributeError "'int' object has no attribute 'startswith'"), []).
Proof.
  apply (non_string_token_raises (constant_api (VDict ∅)) 0%nat
           (RetrieveBankAccount (VStr "usr-1") (VInt 42)) (VInt 42) []).
  - reflexivity.
  - reflexivity.
Defined.

(** X8. A token that starts with a slash replaces the path: for the
    methods that join one token to their first segment, the request goes to
    the token itself. *)
Theorem absolute_token_replaces_path :
  forall (self : Api) (fuel : nat) (t : string) (log : list request),
    String.prefix "/" t = true ->
    (run self fuel (RetrieveUser (VStr t)) log).2 = (log ++ [GET t VNone])%list /\
    (run self fuel (RetrievePayment (VStr t)) log).2 = (log ++ [GET t VNone])%list /\
    (run self fuel (RetrieveProgram (VStr t)) log).2 = (log ++ [GET t VNone])%list /\
    (run self fuel (RetrieveWebhook (VStr t)) log).2 = (log ++ [GET t VNone])%list.
Proof.
  intros self fuel t log Ht.
  assert (Htruthy : truthy (VStr t) = true) by (destruct t; [discriminate | reflexivity]).
  cbn [run]. unfold returning, retrieveUser, retrievePayment, retrieveProgram,
    retrieveWebhook.
  repeat split.
  all: unfold bind at 1; rewrite required_given by assumption.
  all: erewrite bind_ok by now apply path_join_absolute.
  all: unfold bind, doGet, transport, construct, ret, raise.
  all: destruct (apiClient self log (GET t VNone)); try reflexivity.
  all: now destruct (bool_decide _).
Qed.

Lemma absolute_token_replaces_path_witness :
  (run (constant_api (VDict ∅)) 0 (RetrieveUser (VStr "/programs/prg-9")) []).2
  = [GET "/programs/prg-9" VNone].
Proof.
  apply (absolute_token_replaces_path (constant_api (VDict ∅)) 0%nat
           "/programs/prg-9" []).
  reflexivity.
Defined.

(** X9. With plain tokens, [updateBankAccount] sends one [PUT] to
    [users/<userToken>/bank-accounts/<bankAccountToken>] with the payload as
    given (no program token is added) and wraps the answer as a
    [BankAccount]; a transport error is raised unchanged. *)
Theorem updateBankAccount_request :
  forall (self : Api) (u b : string) (data : value) (log : list request),
    plain u = true -> plain b = true -> truthy data = true ->
    let q := PUT ("users/" ++ u ++ "/bank-accounts/" ++ b) data VNone in
    updateBankAccount self (VStr u) (VStr b) data log
    = (match apiClient self log q with
       | Ok response => Ok (Resource "BankAccount" response)
       | Raise e => Raise e
       | OutOfFuel => OutOfFuel
       end, (log ++ [q])%list).
Proof.
  intros self u b data log Hu Hb Hdata q. unfold updateBankAccount.
  destruct (plain_spec u Hu) as (Hu0 & _). destruct (plain_spec b Hb) as (Hb0 & _).
  rewrite !required_given
    by first [assumption | destruct u; [congruence | reflexivity]
             | destruct b; [congruence | reflexivity]].
  assert (Hpath : path_join "users" [VStr u; VStr "bank-accounts"; VStr b] log
                  = (Ok ("users/" ++ u ++ "/bank-accounts/" ++ b), log)).
  { destruct (path_join_plain (W := list request) u
                [VStr "bank-accounts"; VStr b] "users" log)
      as (-> & Hne1 & Hend1); [discriminate | reflexivity | exact Hu |].
    destruct (path_join_plain (W := list request) "bank-accounts" [VStr b]
                ("users" ++ "/" ++ u) log)
      as (-> & Hne2 & Hend2); [exact Hne1 | exact Hend1 | reflexivity |].
    destruct (path_join_plain (W := list request) b []
                (("users" ++ "/" ++ u) ++ "/" ++ "bank-accounts") log)
      as (-> & _); [exact Hne2 | exact Hend2 | exact Hb |].
    cbn [path_join]. unfold ret. rewrite ?append_assoc. reflexivity. }
  erewrite bind_ok by exact Hpath.
  unfold bind, doPut, transport. fold q.
  destruct (apiClient self log q); reflexivity.
Qed.

Lemma updateBankAccount_request_witness :
  updateBankAccount (constant_api (VDict ∅)) (VStr "usr-1") (VStr "trm-2")
    (VDict {[ "branchId" := VStr "021000021" ]}) []
  = (Ok (Resource "BankAccount" (VDict ∅)),
     [PUT "users/usr-1/bank-accounts/trm-2"
        (VDict {[ "branchId" := VStr "021000021" ]}) VNone]).
Proof.
  apply (updateBankAccount_request (constant_api (VDict ∅)) "usr-1" "trm-2"
           (VDict {[ "branchId" := VStr "021000021" ]}) []).
  - reflexivity.
  - reflexivity.
  - reflexivity.
Defined.

(** X10. [createTransferMethod] sends one [POST] to
    [users/<userToken>/transfer-methods] whose headers are exactly
    [{'Json-Cache-Token': cacheToken}] and whose body is [data] as given,
    also when [data] is [None]; the transport's outcome is the method's. *)
Theorem createTransferMethod_request :
  forall (self : Api) (u : string) (cacheToken data : value) (log : list request),
    plain u = true -> truthy cacheToken = true ->
    let q := POST ("users/" ++ u ++ "/transfer-methods") data
               (VDict {[ "Json-Cache-Token" := cacheToken ]}) in
    createTransferMethod self (VStr u) cacheToken data log
    = (apiClient self log q, (log ++ [q])%list).
Proof.
  intros self u cacheToken data log Hu Hcache q. unfold createTransferMethod.
  destruct (plain_spec u Hu) as (Hu0 & _).
  rewrite !required_given
    by first [assumption | destruct u; [congruence | reflexivity]].
  assert (Hpath : path_join "users" [VStr u; VStr "transfer-methods"] log
                  = (Ok ("users/" ++ u ++ "/transfer-methods"), log)).
  { destruct (path_join_plain (W := list request) u
                [VStr "transfer-methods"] "users" log)
      as (-> & Hne1 & Hend1); [discriminate | reflexivity | exact Hu |].
    destruct (path_join_plain (W := list request) "transfer-methods" []
                ("users" ++ "/" ++ u) log)
      as (-> & _); [exact Hne1 | exact Hend1 | reflexivity |].
    cbn [path_join]. unfold ret. rewrite ?append_assoc. reflexivity. }
  erewrite bind_ok by exact Hpath. reflexivity.
Qed.

Lemma createTransferMethod_request_witness :
  createTransferMethod (constant_api (VDict ∅)) (VStr "usr-1") (VStr "cache-7")
    VNone []
  = (Ok (VDict ∅),
     [POST "users/usr-1/transfer-methods" VNone
        (VDict {[ "Json-Cache-Token" := VStr "cache-7" ]})]).
Proof.
  apply (createTransferMethod_request (constant_api (VDict ∅)) "usr-1"
           (VStr "cache-7") VNone []).
  - reflexivity.
  - reflexivity.
Defined.

(** ** Construction *)

(** X11. [Api.__init__] raises [HyperwalletException] naming the first of
    username, password and program token that is [None] or empty; otherwise
    it returns a client that holds the four values as given, so a client
    that exists has non-empty credentials and a non-empty program token. *)
Theorem init_requires_credentials :
  forall (W : Type) (u p t s : value)
         (client : list request -> request -> outcome value) (w : W),
    match first_missing [("username", u); ("password", p); ("programToken", t)] with
    | Some (name, _) =>
        __init__ u p t s client w
        = (Raise (HyperwalletException (name ++ " is required")), w)
    | None =>
        exists self,
          __init__ u p t s client w = (Ok self, w) /\
          username self = u /\ password self = p /\ programToken self = t /\
          server self = s /\
          truthy (username self) = true /\ truthy (password self) = true /\
          truthy (programToken self) = true
    end.
Proof.
  intros W u p t s client w. unfold first_missing, __init__. cbn [find snd].
  destruct (truthy u) eqn:Eu; cbn [negb]; [| reflexivity].
  destruct (truthy p) eqn:Ep; cbn [negb]; [| reflexivity].
  destruct (truthy t) eqn:Et; cbn [negb]; [| reflexivity].
  eexists. split; [reflexivity |]. cbn. auto 10.
Qed.

(** ** Payloads *)

Lemma truthy_dict (d : gmap string value) : d <> ∅ -> truthy (VDict d) = true.
Proof.
  intros Hd. cbn [truthy]. apply negb_true_iff, Nat.eqb_neq.
  now rewrite map_size_empty_iff.
Qed.

Lemma addProgramToken_dict {W} (self : Api) (d : gmap string value) (w : W) :
  exists d',
    _addProgramToken self (VDict d) w = (Ok (VDict d'), w) /\
    d' !! "programToken" = Some (default (programToken self) (d !! "programToken")) /\
    forall key, key <> "programToken" -> d' !! key = d !! key.
Proof.
  unfold _addProgramToken. cbn [isinstance_dict negb].
  erewrite bind_ok by apply contains_dict.
  destruct (d !! "programToken") as [v |] eqn:E.
  - exists d. rewrite E. auto.
  - eexists. split; [reflexivity |]. split.
    + apply lookup_insert_eq.
    + intros key Hkey. now apply lookup_insert_ne.
Qed.

(** X12. [_addProgramToken] changes nothing but the key [programToken]: on a
    dictionary the result has the key and agrees with the argument on every
    other key; on anything that is not a dictionary it raises
    [HyperwalletException] ("data must be a dictionary object"). *)
Theorem addProgramToken_frame :
  forall (W : Type) (self : Api) (data : value) (w : W),
    match data with
    | VDict d =>
        exists d',
          _addProgramToken self data w = (Ok (VDict d'), w) /\
          d' !! "programToken"
          = Some (default (programToken self) (d !! "programToken")) /\
          forall key, key <> "programToken" -> d' !! key = d !! key
    | _ =>
        _addProgramToken self data w
        = (Raise (HyperwalletException "data must be a dictionary object"), w)
    end.
Proof.
  intros W self data w. destruct data as [| b | z | s | l | d]; try reflexivity.
  apply addProgramToken_dict.
Qed.

Lemma addProgramToken_frame_witness :
  let self := constant_api (VDict ∅) in
  let d : gmap string value := {[ "amount" := VStr "10.00" ]} in
  exists d',
    _addProgramToken self (VDict d) tt = (Ok (VDict d'), tt) /\
    d' !! "programToken" = Some (VStr "prg-1") /\
    forall key, key <> "programToken" -> d' !! key = d !! key.
Proof.
  intros self d.
  exact (addProgramToken_frame unit self (VDict d) tt).
Defined.

(** X13. [createUser] and [createPayment] on a non-empty dictionary send one
    [POST] (to [users], to [payments]) whose body has the caller's program
    token if there was one and the client's otherwise, and the caller's
    entries under every other key; [createUser] wraps the answer as a
    [User] and raises a transport error unchanged. *)
Theorem create_sends_program_token :
  forall (self : Api) (d : gmap string value) (log : list request),
    d <> ∅ ->
    exists sent,
      sent !! "programToken"
      = Some (default (programToken self) (d !! "programToken")) /\
      (forall key, key <> "programToken" -> sent !! key = d !! key) /\
      createUser self (VDict d) log
      = (match apiClient self log (POST "users" (VDict sent) VNone) with
         | Ok response => Ok (Resource "User" response)
         | Raise e => Raise e
         | OutOfFuel => OutOfFuel
         end, (log ++ [POST "users" (VDict sent) VNone])%list) /\
      (createPayment self (VDict d) log).2
      = (log ++ [POST "payments" (VDict sent) VNone])%list.
Proof.
  intros self d log Hd.
  destruct (addProgramToken_dict self d log) as (sent & Hadd & Htoken & Hother).
  exists sent. split; [exact Htoken |]. split; [exact Hother |].
  unfold createUser, createPayment.
  rewrite !required_given by now apply truthy_dict.
  unfold bind, doPost, transport. rewrite !Hadd.
  split;
    match goal with
    | |- context [apiClient ?c ?l ?q] => destruct (apiClient c l q)
    end; reflexivity.
Qed.

Lemma create_sends_program_token_witness :
  let self := constant_api (VDict {[ "token" := VStr "usr-1" ]}) in
  let d : gmap string value := {[ "profileType" := VStr "INDIVIDUAL" ]} in
  exists sent,
    sent !! "programToken" = Some (VStr "prg-1") /\
    (forall key, key <> "programToken" -> sent !! key = d !! key) /\
    createUser self (VDict d) []
    = (Ok (Resource "User" (VDict {[ "token" := VStr "usr-1" ]})),
       [POST "users" (VDict sent) VNone]) /\
    (createPayment self (VDict d) []).2 = [POST "payments" (VDict sent) VNone].
Proof.
  intros self d.
  apply (create_sends_program_token self d []).
  apply (map_non_empty_singleton (M := gmap string)).
Defined.

(** X14. A payload that is given but is not a dictionary stops
    [createUser] and [createPayment] before any request:
    [HyperwalletException] ("data must be a dictionary object"). *)
Theorem create_rejects_non_dictionary :
  forall (self : Api) (data : value) (log : list request),
    truthy data = true ->
    isinstance_dict data = false ->
    createUser self data log
    = (Raise (HyperwalletException "data must be a dictionary object"), log) /\
    createPayment self data log
    = (Raise (HyperwalletException "data must be a dictionary object"), log).
Proof.
  intros self data log Htruthy Hdict. unfold createUser, createPayment.
  rewrite !required_given by assumption.
  unfold bind, _addProgramToken. rewrite Hdict. split; reflexivity.
Qed.

Lemma create_rejects_non_dictionary_witness :
  createUser (constant_api (VDict ∅)) (VStr "INDIVIDUAL") []
  = (Raise (HyperwalletException "data must be a dictionary object"), []) /\
  createPayment (constant_api (VDict ∅)) (VStr "INDIVIDUAL") []
  = (Raise (HyperwalletException "data must be a dictionary object"), []).
Proof.
  apply (create_rejects_non_dictionary (constant_api (VDict ∅))
           (VStr "INDIVIDUAL") []).
  - reflexivity.
  - reflexivity.
Defined.

(** ** Listing answers *)

Lemma construct_each_absent {W} name (r : gmap string value) (w : W) :
  r !! "data" = None -> construct_each name (VDict r) w = (Ok [], w).
Proof. intros H. unfold construct_each, get. now rewrite H. Qed.

Lemma construct_each_list {W} name (r : gmap string value) xs (w : W) :
  name ∈ module_globals ->
  r !! "data" = Some (VList xs) ->
  construct_each name (VDict r) w = (Ok (map (Resource name) xs), w).
Proof.
  intros Hname H. unfold construct_each, get. rewrite H.
  erewrite bind_ok by reflexivity. erewrite bind_ok by reflexivity.
  now apply mapM_construct.
Qed.

Lemma construct_each_unbound {W} name (r : gmap string value) x xs (w : W) :
  name ∉ module_globals ->
  r !! "data" = Some (VList (x :: xs)) ->
  construct_each name (VDict r) w
  = (Raise (NameError ("global name '" ++ name ++ "' is not defined")), w).
Proof.
  intros Hname H. unfold construct_each, get. rewrite H.
  erewrite bind_ok by reflexivity. erewrite bind_ok by reflexivity.
  cbn [mapM]. unfold bind, construct.
  now rewrite bool_decide_eq_false_2.
Qed.

Lemma settled_cases {W A} (m : M W A) (w : W) :
  settled m -> (exists a, m w = (Ok a, w)) \/ (exists e, m w = (Raise e, w)).
Proof.
  intros (o & Ho & Hm). rewrite Hm.
  destruct o as [a | e |]; [left; now exists a | right; now exists e | congruence].
Qed.

(** A [list*] method after its checks: one [GET], then the wrapping. *)
Lemma listing_tail self name path params log :
  exists q,
    forall result,
      (response <- doGet self path params ;; construct_each name response) log
      = result ->
      result.2 = (log ++ [q])%list /\
      forall r, apiClient self log q = Ok (VDict r) ->
        result.1 = (construct_each name (VDict r) (log ++ [q])%list).1.
Proof.
  exists (GET path params). intros result <-. unfold bind, doGet, transport.
  destruct (apiClient self log (GET path params)) as [response | e |] eqn:E.
  - destruct (settled_construct_each (W := list request) name response)
      as (o & _ & Ho).
    rewrite Ho. split; [reflexivity |]. intros r [= ->]. now rewrite Ho.
  - split; [reflexivity | discriminate].
  - split; [reflexivity | discriminate].
Qed.

Lemma returning_ext {W A} (wrap : A -> returned) (m1 m2 : M W A) w :
  m1 w = m2 w -> returning wrap m1 w = returning wrap m2 w.
Proof. intros H. unfold returning, bind. now rewrite H. Qed.

(** A [list*] method with a user token: it raises before the request, or
    goes on as the tail with the joined path. *)
Lemma scoped_list_cases self name (u : value) (segment : string) params log :
  let m := (required u "userToken is required" ;;;
            path <- path_join "users" [u; VStr segment] ;;
            response <- doGet self path params ;;
            construct_each name response) in
  (exists e, m log = (Raise e, log)) \/
  (exists path,
      m log = (response <- doGet self path params ;;
               construct_each name response) log).
Proof.
  intros m. unfold m. destruct (truthy u) eqn:Eu.
  - rewrite required_given by assumption.
    destruct (settled_cases (path_join "users" [u; VStr segment]) log
                (settled_path_join _ _)) as [(path & Hp) | (e & Hp)].
    + right. exists path. now erewrite bind_ok by exact Hp.
    + left. exists e. now erewrite bind_raise by exact Hp.
  - left. eexists. now apply required_missing.
Qed.

(** X15. A [list*] call either raises before any request or sends exactly
    one; when the answer is a mapping without [data] the result is the empty
    list, and when [data] is a list the result is its elements, in order,
    each wrapped in the resource class of the call, provided the class is
    bound in the module (all but [Payment]). *)
Theorem list_wraps_data :
  forall (self : Api) (fuel : nat) (c : call) (name : string) (log : list request),
    listing c = Some name ->
    (exists e, run self fuel c log = (Raise e, log)) \/
    (exists q,
        (run self fuel c log).2 = (log ++ [q])%list /\
        forall r, apiClient self log q = Ok (VDict r) ->
          (r !! "data" = None -> (run self fuel c log).1 = Ok (Many [])) /\
          (forall xs, r !! "data" = Some (VList xs) ->
                      name ∈ module_globals ->
                      (run self fuel c log).1
                      = Ok (Many (map (Resource name) xs)))).
Proof.
  intros self fuel c name log Hc.
  assert (Htail : forall path params,
             exists q,
               (returning Many
                  (response <- doGet self path params ;;
                   construct_each name response) log).2 = (log ++ [q])%list /\
               forall r, apiClient self log q = Ok (VDict r) ->
                 (r !! "data" = None ->
                  (returning Many
                     (response <- doGet self path params ;;
                      construct_each name response) log).1 = Ok (Many [])) /\
                 (forall xs, r !! "data" = Some (VList xs) ->
                             name ∈ module_globals ->
                             (returning Many
                                (response <- doGet self path params ;;
                                 construct_each name response) log).1
                             = Ok (Many (map (Resource name) xs)))).
  { intros path params.
    destruct (listing_tail self name path params log) as (q & Hq).
    exists q. unfold returning. unfold bind at 1 3 5.
    destruct ((response <- doGet self path params ;;
               construct_each name response) log) as [o log'] eqn:E.
    destruct (Hq _ eq_refl) as [Hlog Hr]. cbn [fst snd] in *. subst log'.
    split; [now destruct o |].
    intros r Hok. specialize (Hr r Hok). split.
    - intros Hdata. rewrite construct_each_absent in Hr by assumption.
      cbn [fst] in Hr. now subst o.
    - intros xs Hdata Hname.
      rewrite (construct_each_list name r xs) in Hr by assumption.
      cbn [fst] in Hr. now subst o. }
  destruct c; try discriminate Hc; injection Hc as <-; cbn [run];
    try (right; apply Htail).
  all: match goal with
       | |- context [returning Many (?list ?s ?u ?p) ?l] =>
           unfold list;
           match goal with
           | |- context [construct_each ?n _] =>
               match goal with
               | |- context [path_join "users" [u; VStr ?segment]] =>
                   destruct (scoped_list_cases s n u segment p l)
                     as [(e & He) | (path & Hpath)]
               end
           end
       end.
  all: first
         [ left; exists e; now apply returning_raise
         | right; rewrite (returning_ext Many _ _ _ Hpath); apply Htail ].
Qed.

Lemma list_wraps_data_witness :
  let answer := VDict {[ "data" := VList [VStr "a"; VStr "b"] ]} in
  (exists e, run (constant_api answer) 0 (ListWebhooks VNone) [] = (Raise e, [])) \/
  (exists q,
      (run (constant_api answer) 0 (ListWebhooks VNone) []).2 = [q] /\
      forall r, Ok answer = Ok (VDict r) ->
        (r !! "data" = None ->
         (run (constant_api answer) 0 (ListWebhooks VNone) []).1 = Ok (Many [])) /\
        (forall xs, r !! "data" = Some (VList xs) ->
                    "Webhook" ∈ module_globals ->
                    (run (constant_api answer) 0 (ListWebhooks VNone) []).1
                    = Ok (Many (map (Resource "Webhook") xs)))).
Proof.
  intros answer.
  apply (list_wraps_data (constant_api answer) 0%nat (ListWebhooks VNone)
           "Webhook" []).
  reflexivity.
Defined.

(** X16. [listPayments] returns only when there is nothing to wrap: for an
    answer without [data], or with an empty [data], it returns the empty
    list; for an answer whose [data] is a non-empty list it raises
    [NameError], because [Payment] is not bound in the module. *)
Theorem listPayments_returns_only_empty :
  forall (self : Api) (params : value) (r : gmap string value)
         (log : list request),
    apiClient self log (GET "payments" params) = Ok (VDict r) ->
    (r !! "data" = None \/ r !! "data" = Some (VList []) ->
     listPayments self params log
     = (Ok [], (log ++ [GET "payments" params])%list)) /\
    (forall x xs, r !! "data" = Some (VList (x :: xs)) ->
       listPayments self params log
       = (Raise (NameError "global name 'Payment' is not defined"),
          (log ++ [GET "payments" params])%list)).
Proof.
  intros self params r log Hok. unfold listPayments.
  assert (Hget : doGet self "payments" params log
                 = (Ok (VDict r), (log ++ [GET "payments" params])%list)).
  { unfold doGet, transport. now rewrite Hok. }
  split.
  - intros [Hdata | Hdata]; erewrite bind_ok by exact Hget.
    + now apply construct_each_absent.
    + unfold construct_each, get. now rewrite Hdata.
  - intros x xs Hdata. erewrite bind_ok by exact Hget.
    apply (construct_each_unbound "Payment" r x xs); [| exact Hdata].
    vm_compute. intros H. repeat (inversion H as [| ? ? ? H']; clear H; rename H' into H).
Qed.

Lemma listPayments_returns_only_empty_witness :
  let self := constant_api (VDict {[ "data" := VList [] ]}) in
  listPayments self VNone [] = (Ok [], [GET "payments" VNone]).
Proof.
  intros self.
  apply (proj1 (listPayments_returns_only_empty self VNone
                  {[ "data" := VList [] ]} [] eq_refl)).
  right. reflexivity.
Defined.

(** ** Query parameters that are not a container *)

(** X17. The two transfer-method-configuration methods test their keys with
    [in]: when [params] is [None], a bool or an int, the test itself raises
    [TypeError] (not [HyperwalletException]) and no request is sent. *)
Theorem configuration_params_not_iterable :
  forall (self : Api) (m : configuration_method) (params : value)
         (log : list request),
    match params with VNone | VBool _ | VInt _ => True | _ => False end ->
    configuration_call self m params log
    = (Raise (TypeError ("argument of type '" ++ type_name params
                         ++ "' is not iterable")), log).
Proof.
  intros self m params log Hparams.
  destruct params; try contradiction; destruct m; reflexivity.
Qed.

Lemma configuration_params_not_iterable_witness :
  configuration_call (constant_api (VDict ∅)) ListConfigurations VNone []
  = (Raise (TypeError "argument of type 'NoneType' is not iterable"), []).
Proof.
  apply (configuration_params_not_iterable (constant_api (VDict ∅))
           ListConfigurations VNone []).
  exact I.
Defined.

(** ** Whole datasets *)

Section Paging_to_the_end.
Context {E A : Type} (data : list A) (ev : Z -> E).
Context (func : value -> M (list E) (list A)).

Hypothesis func_serves : forall (o : nat) (log : list E),
  func (page (VInt (Z.of_nat o))) log
  = (Ok (firstn 100 (skipn o data)), (log ++ [ev (Z.of_nat o)])%list).

Lemma fetches_over_dataset (n : nat) :
  forall (o : nat) (log : list E),
    (length data - o < 100 * n)%nat ->
    exists rs,
      fetches func (Z.of_nat o) log rs
        (log ++ map ev (offsets (S ((length data - o) / 100)) o))%list /\
      concat rs = skipn o data /\
      length rs = S ((length data - o) / 100).
Proof.
  induction n as [| n IH]; intros o log Hn; [lia |].
  destruct (Nat.lt_ge_cases (length data - o) 100) as [Hshort | Hfull].
  - exists [firstn 100 (skipn o data)].
    rewrite Nat.div_small by lia. rewrite offsets_one. split; [| split].
    + apply fetches_short; [apply func_serves |].
      rewrite length_take, length_drop. lia.
    + cbn [concat]. rewrite app_nil_r. apply take_ge. rewrite length_drop. lia.
    + reflexivity.
  - destruct (IH (o + 100)%nat (log ++ [ev (Z.of_nat o)])%list) as (rs & Hrs & Hcat & Hlen);
      [lia |].
    exists (firstn 100 (skipn o data) :: rs).
    rewrite (div_100_step (length data - o)) by lia.
    replace (length data - (o + 100))%nat with (length data - o - 100)%nat in * by lia.
    split; [| split].
    + eapply fetches_full; [apply func_serves | |].
      * rewrite length_take, length_drop. lia.
      * replace (Z.of_nat o + 100) with (Z.of_nat (o + 100)) by lia.
        rewrite (offsets_succ (S _)). cbn [map].
        rewrite <- app_assoc in Hrs. exact Hrs.
    + cbn [concat]. rewrite Hcat, <- drop_drop. apply take_drop.
    + cbn [length]. now rewrite Hlen.
Qed.

Lemma getCollection_to_the_end (d : gmap string value) (o : nat) (fuel : nat)
    (log : list E) :
  no_maximum d ->
  starts_at d (Z.of_nat o) ->
  (S ((length data - o) / 100) <= fuel)%nat ->
  _getCollection fuel func (VDict d) log
  = (Ok (skipn o data),
     (log ++ map ev (offsets (S ((length data - o) / 100)) o))%list).
Proof.
  intros Hmax Ho Hfuel.
  destruct (fetches_over_dataset (S (length data - o)) o log) as (rs & Hrs & Hcat & Hlen);
    [lia |].
  rewrite <- Hcat.
  apply (getCollection_until_short func d (Z.of_nat o)); auto. lia.
Qed.
End Paging_to_the_end.

Lemma list_over_dataset (path name : string) (data : list value) (o : nat)
    (log : list request) :
  name ∈ module_globals ->
  (response <- doGet (dataset_api path data) path (page (VInt (Z.of_nat o))) ;;
   construct_each name response) log
  = (Ok (firstn 100 (skipn o (map (Resource name) data))),
     (log ++ [GET path (page (VInt (Z.of_nat o)))])%list).
Proof.
  intros Hname. unfold doGet, transport.
  erewrite bind_ok; cycle 1.
  { cbn [dataset_api apiClient dataset_client]. rewrite String.eqb_refl.
    rewrite served_page. reflexivity. }
  rewrite (construct_each_list name _ (firstn 100 (skipn o data)))
    by (assumption || apply lookup_singleton_eq).
  now rewrite skipn_map, firstn_map.
Qed.

(** X18. Without a maximum, over a dataset served in pages,
    [_getCollection] returns every item from the starting offset on, after
    [floor(L / 100) + 1] requests for the [L] items available: when [L] is a
    multiple of 100 the last request is answered with an empty page. *)
Theorem getCollection_returns_whole_dataset :
  forall (A : Type) (data : list A) (d : gmap string value) (o : nat)
         (fuel : nat) (log : list value),
    no_maximum d ->
    starts_at d (Z.of_nat o) ->
    (S ((length data - o) / 100) <= fuel)%nat ->
    _getCollection fuel (dataset_fetch data) (VDict d) log
    = (Ok (skipn o data),
       (log ++ map (fun z => page (VInt z))
                 (offsets (S ((length data - o) / 100)) o))%list).
Proof.
  intros A data d o fuel log Hmax Ho Hfuel.
  apply (getCollection_to_the_end data (fun z => page (VInt z))); auto.
  intros o' log'. apply dataset_fetch_serves.
Qed.

Lemma getCollection_returns_whole_dataset_witness :
  _getCollection 3 (dataset_fetch (numbered 200)) (VDict ∅) []
  = (Ok (numbered 200), [page (VInt 0); page (VInt 100); page (VInt 200)]).
Proof.
  apply (getCollection_returns_whole_dataset value (numbered 200) ∅ 0%nat 3%nat []).
  - exact I.
  - reflexivity.
  - vm_compute. lia.
Defined.

(** X19. Over a transport that lists a dataset, [getUsers] and
    [getWebhooks] return the requested slice as resources: with a maximum of
    at least 1, the first [min(maximum, M - o)] items from offset [o], each
    wrapped as a [User] (a [Webhook]), in the dataset's order; the requests
    are [GET]s of the listing path with [{offset, limit: 100}] at [o],
    [o + 100], ... *)
Theorem get_returns_slice_as_resources :
  forall (data : list value) (d : gmap string value) (o : nat) (m : Z)
         (fuel : nat) (log : list request),
    starts_at d (Z.of_nat o) ->
    d !! "maximum" = Some (VInt m) ->
    1 <= m ->
    (fetch_count (length data - o) (Z.to_nat m) <= fuel)%nat ->
    getUsers (dataset_api "users" data) fuel (VDict d) log
    = (Ok (map (Resource "User") (firstn (Z.to_nat m) (skipn o data))),
       (log ++ map (fun z => GET "users" (page (VInt z)))
                 (offsets (fetch_count (length data - o) (Z.to_nat m)) o))%list) /\
    getWebhooks (dataset_api "webhook-notifications" data) fuel (VDict d) log
    = (Ok (map (Resource "Webhook") (firstn (Z.to_nat m) (skipn o data))),
       (log ++ map (fun z => GET "webhook-notifications" (page (VInt z)))
                 (offsets (fetch_count (length data - o) (Z.to_nat m)) o))%list).
Proof.
  intros data d o m fuel log Ho Hm Hone Hfuel.
  assert (Hbound : forall name, In name ["User"; "Webhook"] -> name ∈ module_globals).
  { intros name [<- | [<- | []]]; vm_compute; repeat constructor. }
  split.
  - unfold getUsers.
    rewrite (getCollection_over_dataset (map (Resource "User") data)
               (fun z => GET "users" (page (VInt z)))
               (listUsers (dataset_api "users" data))
               (fun o' log' => list_over_dataset "users" "User" data o' log'
                                 (Hbound "User" (or_introl eq_refl)))
               d o m fuel log Ho Hm Hone);
      rewrite ?length_map; [| exact Hfuel].
    now rewrite skipn_map, firstn_map.
  - unfold getWebhooks.
    rewrite (getCollection_over_dataset (map (Resource "Webhook") data)
               (fun z => GET "webhook-notifications" (page (VInt z)))
               (listWebhooks (dataset_api "webhook-notifications" data))
               (fun o' log' =>
                  list_over_dataset "webhook-notifications" "Webhook" data o' log'
                    (Hbound "Webhook" (or_intror (or_introl eq_refl))))
               d o m fuel log Ho Hm Hone);
      rewrite ?length_map; [| exact Hfuel].
    now rewrite skipn_map, firstn_map.
Qed.

Lemma get_returns_slice_as_resources_witness :
  let d : gmap string value := {[ "offset" := VInt 2; "maximum" := VInt 2 ]} in
  getUsers (dataset_api "users" (numbered 5)) 1 (VDict d) []
  = (Ok (map (Resource "User") (firstn 2 (skipn 2 (numbered 5)))),
     [GET "users" (page (VInt 2))]) /\
  getWebhooks (dataset_api "webhook-notifications" (numbered 5)) 1 (VDict d) []
  = (Ok (map (Resource "Webhook") (firstn 2 (skipn 2 (numbered 5)))),
     [GET "webhook-notifications" (page (VInt 2))]).
Proof.
  intros d.
  apply (get_returns_slice_as_resources (numbered 5) d 2%nat 2 1%nat []).
  - reflexivity.
  - reflexivity.
  - lia.
  - vm_compute. lia.
Defined.

(** ** The [get*] methods of the user-scoped families *)

Lemma getCollection_over_failing_func {W A} (func : value -> M W (list A)) :
  (forall offset w, exists e, func (page offset) w = (Raise e, w)) ->
  forall (fuel : nat) (params : value) (w : W),
    (_getCollection fuel func params w).2 = w /\
    forall items, (_getCollection fuel func params w).1 = Ok items -> items = [].
Proof.
  intros Hfunc fuel params w. unfold _getCollection.
  destruct params as [| b | z | s | l | d];
    try (split; [reflexivity | discriminate]).
  unfold get. erewrite !bind_ok by reflexivity.
  destruct (_ && _).
  - split; [reflexivity |]. now intros items [= <-].
  - unfold bind. destruct fuel as [| fuel]; cbn [_getCollection_loop].
    + split; [reflexivity | discriminate].
    + unfold bind.
      destruct (Hfunc (py_or match d !! "offset" with
                             | Some v => v
                             | None => VNone
                             end (VInt 0)) w) as (e & ->).
      split; [reflexivity | discriminate].
Qed.

Lemma getCollection_over_failing_func_ends {W A} (func : value -> M W (list A)) :
  (forall offset w, exists e, func (page offset) w = (Raise e, w)) ->
  forall (fuel : nat) (params : value) (w : W),
    (_getCollection (S fuel) func params w).1 = Ok []
    \/ exists e, (_getCollection (S fuel) func params w).1 = Raise e.
Proof.
  intros Hfunc fuel params w. unfold _getCollection.
  destruct params as [| b | z | s | l | d];
    try (right; eexists; reflexivity).
  unfold get. erewrite !bind_ok by reflexivity.
  destruct (_ && _); [left; reflexivity |].
  right. unfold bind. cbn [_getCollection_loop]. unfold bind.
  destruct (Hfunc (py_or match d !! "offset" with
                         | Some v => v
                         | None => VNone
                         end (VInt 0)) w) as (e & ->).
  now exists e.
Qed.

Lemma user_scoped_list_rejects_dictionary self name segment
    (d : gmap string value) params log :
  exists e,
    (required (VDict d) "userToken is required" ;;;
     path <- path_join "users" [VDict d; VStr segment] ;;
     response <- doGet self path params ;;
     construct_each name response) log = (Raise e, log).
Proof.
  destruct (truthy (VDict d)) eqn:E.
  - rewrite required_given by assumption. eexists. reflexivity.
  - eexists. now apply required_missing.
Qed.

(** X20. [getBankAccounts], [getPrepaidCards] and [getPaperChecks] hand the
    page parameters to a [list*] method whose first parameter is the user
    token: whatever [params] and the transport are, these three methods send
    no request and the only list they can return is the empty one; once the
    loop has fuel for one iteration, they return the empty list or raise. *)
Theorem user_scoped_get_sends_nothing :
  forall (self : Api) (f : family) (fuel : nat) (params : value)
         (log : list request),
    f = BankAccounts \/ f = PrepaidCards \/ f = PaperChecks ->
    (get_method self f fuel params log).2 = log /\
    (forall items, (get_method self f fuel params log).1 = Ok items -> items = []) /\
    ((get_method self f (S fuel) params log).1 = Ok []
     \/ exists e, (get_method self f (S fuel) params log).1 = Raise e).
Proof.
  intros self f fuel params log Hf.
  assert (Hlist : forall offset w, exists e,
             list_method self f (page offset) w = (Raise e, w)).
  { intros offset w. unfold page.
    destruct Hf as [-> | [-> | ->]]; cbn [list_method].
    - apply (user_scoped_list_rejects_dictionary self "BankAccount" "bank-accounts").
    - apply (user_scoped_list_rejects_dictionary self "PrepaidCard" "prepaid-cards").
    - apply (user_scoped_list_rejects_dictionary self "PaperCheck" "paper-checks"). }
  rewrite !get_method_unfold.
  destruct (getCollection_over_failing_func _ Hlist fuel params log) as [Hlog Hempty].
  split; [exact Hlog |]. split; [exact Hempty |].
  apply getCollection_over_failing_func_ends. exact Hlist.
Qed.

Lemma user_scoped_get_sends_nothing_witness :
  let self := dataset_api "users/usr-1/bank-accounts" (numbered 5) in
  let params := VDict {[ "maximum" := VInt 3 ]} in
  (get_method self BankAccounts 4 params []).2 = [] /\
  (forall items, (get_method self BankAccounts 4 params []).1 = Ok items -> items = []) /\
  ((get_method self BankAccounts 5 params []).1 = Ok []
   \/ exists e, (get_method self BankAccounts 5 params []).1 = Raise e).
Proof.
  intros self params.
  apply (user_scoped_get_sends_nothing self BankAccounts 4%nat params []).
  left. reflexivity.
Defined.
